(** * Palladium filelist generator: a shallow embedding of [palladium.py]

    The development follows [Palladium.configure_main]: two filelist files
    are opened for writing, the resolved source files are visited in order,
    a compile line is composed for every Verilog or SystemVerilog file that
    is not an included file, and the line is written to the emulation
    filelist or to the simulation filelist. *)

From stdpp Require Import base strings list gmap pretty sorting.
From Stdlib Require Import ZArith Ascii.

Local Open Scope string_scope.
Local Open Scope list_scope.

(** ** The slice of Python that the method relies on *)

Module Py.

(** Values that attributes and parameters carry. *)
Inductive value :=
| VNone
| VBool (b : bool)
| VInt (z : Z)
| VStr (s : string)
| VList (l : list string).

#[global] Instance value_eq_dec : EqDecision value.
Proof. solve_decision. Defined.

(** [x == 'literal'] for a string literal on the right. *)
Definition eq_str (x : value) (lit : string) : bool :=
  match x with
  | VStr s => String.eqb s lit
  | _ => false
  end.

(** [hasattr(obj, attr)]: an attribute that may be missing is an option. *)
Definition hasattr {A} (attr : option A) : bool :=
  match attr with
  | Some _ => true
  | None => false
  end.

(** Truth value of a string: only the empty string is false. *)
Definition truthy_str (s : string) : bool := negb (String.eqb s "").

(** [sep.join(items)]. *)
Definition join (sep : string) (items : list string) : string :=
  String.concat sep items.

(** The one-character string that ends a line. *)
Definition newline : string := String "010"%char EmptyString.

(** [s.startswith(p)] and [s.endswith('/')]. *)
Definition startswith (s p : string) : bool := String.prefix p s.

Fixpoint endswith_sep (s : string) : bool :=
  match s with
  | EmptyString => false
  | String c EmptyString => Ascii.eqb c "/"%char
  | String _ rest => endswith_sep rest
  end.

(** [os.path.join(a, b)] of [posixpath], for two components. *)
Definition os_path_join (a b : string) : string :=
  if startswith b "/" then b
  else if negb (truthy_str a) || endswith_sep a then a +:+ b
  else a +:+ "/" +:+ b.

End Py.

(** ** Source file descriptors

    The objects returned by the host framework.  [is_include_file] and
    [partof] are attributes that an object may lack altogether, which the
    method probes with [hasattr]; [logical_name] is always there and may be
    [None] or empty. *)

Module File.

Record t := mk {
  name : string;
  file_type : string;
  logical_name : option string;
  is_include_file : option Py.value;
  partof : option Py.value;
}.

End File.

(** Values of the [tool_options] dictionary: [get_doc] declares scalar
    members of type String and lists with entries of type String. *)
Inductive tool_option :=
| OptStr (s : string)
| OptList (l : list string).

(** Strings hold the UTF-8 bytes of a Python text.  Iterating over a text
    yields its characters: a byte [10xxxxxx] continues the character begun
    before it. *)
Definition is_continuation_byte (c : ascii) : bool :=
  (128 <=? nat_of_ascii c)%nat && (nat_of_ascii c <? 192)%nat.

Fixpoint str_chars (s : string) : list string :=
  match s with
  | EmptyString => []
  | String c rest =>
      match rest with
      | EmptyString => [String c EmptyString]
      | String d _ =>
          if is_continuation_byte d
          then match str_chars rest with
               | g :: gs => String c g :: gs
               | [] => [String c EmptyString]
               end
          else String c EmptyString :: str_chars rest
      end
  end.

(** Truth value of a tool option, and the items [' '.join] iterates over
    (a string is iterated character by character). *)
Definition opt_truthy (o : tool_option) : bool :=
  match o with
  | OptStr s => Py.truthy_str s
  | OptList l => match l with [] => false | _ :: _ => true end
  end.

Definition opt_items (o : tool_option) : list string :=
  match o with
  | OptStr s => str_chars s
  | OptList l => l
  end.

(** The attributes of the [Palladium] object that [configure_main] reads.
    Dictionaries whose iteration order reaches the output are kept as
    association lists in that order.  [_get_fileset_files] is a method of
    the base class [EdaBridge], which is not part of this module: its
    result, the pair [(src_files, incdirs)], is taken as given. *)
Record Palladium := mkPalladium {
  work_root : string;
  name : string;
  vlogdefine : list (string * Py.value);
  vlogparam : list (string * Py.value);
  tool_options : gmap string tool_option;
  _get_fileset_files : list File.t * list string;
}.

Definition with_files (self : Palladium) (files : list File.t) : Palladium :=
  {| work_root := work_root self;
     name := name self;
     vlogdefine := vlogdefine self;
     vlogparam := vlogparam self;
     tool_options := tool_options self;
     _get_fileset_files := (files, snd (_get_fileset_files self)) |}.

(** ** The world the method acts on: files, descriptors, and a trace *)

Inductive exn :=
| OSError (errno : Z) (filename : string)
| ValueError (msg : string).

Inductive event :=
| EvOpen (path : string)
| EvOpenFailed (path : string) (errno : Z)
| EvWrite (path : string) (data : string)
| EvClose (path : string).

(** [disk] maps a path to the bytes of the file, [open_errno] tells for
    which paths [open(path, 'w')] fails and with which error number, [fds]
    are the open file objects with the path each was opened on, and [trace]
    lists the file operations in the order they happened.  Buffering is not
    modelled: written data reaches the file at once, which leaves the same
    files behind once the file objects are closed. *)
Record world := mkWorld {
  disk : gmap string string;
  open_errno : string -> option Z;
  fds : gmap nat string;
  next_fd : nat;
  trace : list event;
}.

Inductive result (A : Type) :=
| Ok (a : A)
| Raise (e : exn).
Arguments Ok {A} a.
Arguments Raise {A} e.

(** Computations that may raise and that change the world either way. *)
Definition M (A : Type) : Type := world -> result A * world.

Definition ret {A} (a : A) : M A := fun w => (Ok a, w).

Definition bind {A B} (m : M A) (k : A -> M B) : M B :=
  fun w =>
    match m w with
    | (Ok a, w') => k a w'
    | (Raise e, w') => (Raise e, w')
    end.

Notation "'do' x <- m ; k" := (bind m (fun x => k))
  (at level 10, x name, m at level 100, k at level 200).
Notation "m ;; k" := (bind m (fun _ => k))
  (at level 100, k at level 200, right associativity).

(** [open(path, 'w')]: fails with the error of the path, or creates the
    file empty (truncating what was there) and returns a new file object. *)
Definition open_w (path : string) : M nat :=
  fun w =>
    match open_errno w path with
    | Some errno =>
        (Raise (OSError errno path),
         mkWorld (disk w) (open_errno w) (fds w) (next_fd w)
                 (trace w ++ [EvOpenFailed path errno]))
    | None =>
        (Ok (next_fd w),
         mkWorld (<[path := ""]> (disk w)) (open_errno w)
                 (<[next_fd w := path]> (fds w)) (S (next_fd w))
                 (trace w ++ [EvOpen path]))
    end.

(** [fh.write(data)]: appends to the file the object was opened on; a
    closed file object raises [ValueError]. *)
Definition write (fh : nat) (data : string) : M unit :=
  fun w =>
    match fds w !! fh with
    | None => (Raise (ValueError "I/O operation on closed file."), w)
    | Some path =>
        (Ok tt,
         mkWorld (<[path := default "" (disk w !! path) +:+ data]> (disk w))
                 (open_errno w) (fds w) (next_fd w)
                 (trace w ++ [EvWrite path data]))
    end.

(** [fh.close()]: closing a closed file object does nothing. *)
Definition close (fh : nat) : M unit :=
  fun w =>
    match fds w !! fh with
    | None => (Ok tt, w)
    | Some path =>
        (Ok tt,
         mkWorld (disk w) (open_errno w) (delete fh (fds w)) (next_fd w)
                 (trace w ++ [EvClose path]))
    end.

(** [for x in xs: body(x)]. *)
Fixpoint for_each {A} (body : A -> M unit) (xs : list A) : M unit :=
  match xs with
  | [] => ret tt
  | x :: rest => body x ;; for_each body rest
  end.

(** ** [Palladium.configure_main] *)

Section ConfigureMain.

(** [_param_value_str] is inherited from [EdaBridge], which is not part of
    this module: the results below hold for whatever text it yields. *)
Variable _param_value_str : Py.value -> string.

(** The [args] list of one file, built by the appends of the method in
    their order. *)
Definition compose_args (self : Palladium) (incdirs : list string)
    (f : File.t) : list string :=
  let args := [] in
  let args :=
    if String.eqb (File.file_type f) "systemVerilogSource"
    then args ++ ["-sv"] else args in
  let args :=
    match File.logical_name f with
    | Some lib => if Py.truthy_str lib then args ++ ["-lib " +:+ lib] else args
    | None => args
    end in
  let args :=
    fold_left (fun args '(k, v) =>
                 args ++ ["+define+" +:+ k +:+ "=" +:+ _param_value_str v])
              (vlogdefine self) args in
  let args :=
    fold_left (fun args '(k, v) =>
                 args ++ [k +:+ "=" +:+ _param_value_str v])
              (vlogparam self) args in
  let args :=
    fold_left (fun args v => args ++ ["+incdir+" +:+ v]) incdirs args in
  let args :=
    if opt_truthy (default (OptStr "") (tool_options self !! "vlan_opts"))
    then args ++ [Py.join " " (opt_items
                    (default (OptStr "") (tool_options self !! "vlan_opts")))]
    else args in
  args ++ [File.name f].

(** The body of the loop over [src_files]. *)
Definition loop_body (self : Palladium) (incdirs : list string)
    (efh sfh : nat) (f : File.t) : M unit :=
  if String.eqb (File.file_type f) "verilogSource"
     || String.eqb (File.file_type f) "systemVerilogSource"
  then
    if Py.hasattr (File.is_include_file f) then ret tt
    else
      let args := compose_args self incdirs f in
      if Py.hasattr (File.partof f)
         && match File.partof f with
            | Some v => Py.eq_str v "dut"
            | None => false
            end
      then write efh (Py.join " " args +:+ Py.newline)
      else write sfh (Py.join " " args +:+ Py.newline)
  else ret tt.

Definition emu_filelist_file (self : Palladium) : string :=
  Py.os_path_join (work_root self) (name self +:+ ".emu.f").

Definition sim_filelist_file (self : Palladium) : string :=
  Py.os_path_join (work_root self) (name self +:+ ".sim.f").

(** The debug dump at the head of the method only prints to the standard
    output, which is outside the world above; it is left out. *)
Definition configure_main (self : Palladium) : M unit :=
  let '(src_files, incdirs) := _get_fileset_files self in
  do efh <- open_w (emu_filelist_file self);
  do sfh <- open_w (sim_filelist_file self);
  for_each (loop_body self incdirs efh sfh) src_files ;;
  close efh ;;
  close sfh.

End ConfigureMain.

(** ** Writes and closes that fail

    [write] and [close] above are those of a device that takes every byte.
    A real write or close may raise: the text may have no encoding, the
    device may be full.  [faults] tells which writes (by path and data) and
    which closes (by path) raise, and what.  A file object whose close
    raises is closed all the same; what had reached the file by then is not
    tracked beyond what the writes put there. *)
Record faults := mkFaults {
  write_fault : string -> string -> option exn;
  close_fault : string -> option exn;
}.

Definition write_io (ft : faults) (fh : nat) (data : string) : M unit :=
  fun w =>
    match fds w !! fh with
    | None => write fh data w
    | Some path =>
        match write_fault ft path data with
        | Some e => (Raise e, w)
        | None => write fh data w
        end
    end.

Definition close_io (ft : faults) (fh : nat) : M unit :=
  fun w =>
    match fds w !! fh with
    | None => close fh w
    | Some path =>
        match close_fault ft path with
        | Some e => (Raise e, snd (close fh w))
        | None => close fh w
        end
    end.

(** The method again, line for line, over a device given by its [write] and
    its [close]. *)
Section Device.

Variable dev_write : nat -> string -> M unit.
Variable dev_close : nat -> M unit.
Variable _param_value_str : Py.value -> string.

Definition loop_body_on (self : Palladium) (incdirs : list string)
    (efh sfh : nat) (f : File.t) : M unit :=
  if String.eqb (File.file_type f) "verilogSource"
     || String.eqb (File.file_type f) "systemVerilogSource"
  then
    if Py.hasattr (File.is_include_file f) then ret tt
    else
      let args := compose_args _param_value_str self incdirs f in
      if Py.hasattr (File.partof f)
         && match File.partof f with
            | Some v => Py.eq_str v "dut"
            | None => false
            end
      then dev_write efh (Py.join " " args +:+ Py.newline)
      else dev_write sfh (Py.join " " args +:+ Py.newline)
  else ret tt.

Definition configure_main_on (self : Palladium) : M unit :=
  let '(src_files, incdirs) := _get_fileset_files self in
  do efh <- open_w (emu_filelist_file self);
  do sfh <- open_w (sim_filelist_file self);
  for_each (loop_body_on self incdirs efh sfh) src_files ;;
  dev_close efh ;;
  dev_close sfh.

End Device.

(** The world once both filelists have been opened. *)
Definition opened_world (self : Palladium) (w : world) : world :=
  mkWorld
    (<[sim_filelist_file self := ""]>
       (<[emu_filelist_file self := ""]> (disk w)))
    (open_errno w)
    (<[S (next_fd w) := sim_filelist_file self]>
       (<[next_fd w := emu_filelist_file self]> (fds w)))
    (S (S (next_fd w)))
    (trace w ++ [EvOpen (emu_filelist_file self);
                 EvOpen (sim_filelist_file self)]).

Definition configure_main_io (ft : faults) (fmt : Py.value -> string)
    (self : Palladium) : M unit :=
  configure_main_on (write_io ft) (close_io ft) fmt self.

(** Modelled from the spec: the text [_param_value_str] gives a parameter
    value; the method is inherited from [EdaBridge], which is not part of
    this module.  Numbers and strings are taken verbatim, booleans give
    their literal text, lists are joined.  The spec names no separator for
    lists, so it is an argument; [None] gets the text Python prints. *)
Definition param_value_str_spec (sep : string) (v : Py.value) : string :=
  match v with
  | Py.VNone => "None"
  | Py.VBool true => "True"
  | Py.VBool false => "False"
  | Py.VInt z => pretty z
  | Py.VStr s => s
  | Py.VList l => Py.join sep l
  end.

(** ** Vocabulary of the specification, read off the descriptor

    The specification speaks of a kind, of an include-only flag and of a
    device-under-test flag; on the objects of the code these are the
    [file_type] text, the presence of [is_include_file], and a [partof]
    attribute that is present and equal to ['dut']. *)

Definition is_verilog_kind (f : File.t) : bool :=
  String.eqb (File.file_type f) "verilogSource"
  || String.eqb (File.file_type f) "systemVerilogSource".

Definition isIncludeOnly (f : File.t) : bool :=
  Py.hasattr (File.is_include_file f).

Definition belongsToDeviceUnderTest (f : File.t) : bool :=
  match File.partof f with
  | Some v => Py.eq_str v "dut"
  | None => false
  end.

Definition eligible (f : File.t) : bool :=
  is_verilog_kind f && negb (isIncludeOnly f).

(** The text one file puts into a filelist: its line and the newline. *)
Definition compose_line (fmt : Py.value -> string) (self : Palladium)
    (incdirs : list string) (f : File.t) : string :=
  Py.join " " (compose_args fmt self incdirs f) +:+ Py.newline.

Definition line_of (fmt : Py.value -> string) (self : Palladium)
    (f : File.t) : string :=
  compose_line fmt self (snd (_get_fileset_files self)) f.

(** The filelist a file is bound for. *)
Definition destination (self : Palladium) (f : File.t) : string :=
  if belongsToDeviceUnderTest f
  then emu_filelist_file self else sim_filelist_file self.

(** What a pass over [files] adds to the file of the emulation file object
    ([dut = true]) or of the simulation one, and the writes it performs on
    the paths [pe] and [ps] of the two. *)
Definition loop_lines (fmt : Py.value -> string) (self : Palladium)
    (incdirs : list string) (dut : bool) (files : list File.t) : list string :=
  compose_line fmt self incdirs <$>
    List.filter (fun f => eligible f && Bool.eqb (belongsToDeviceUnderTest f) dut)
                files.

Definition loop_events (fmt : Py.value -> string) (self : Palladium)
    (incdirs : list string) (pe ps : string) (files : list File.t)
    : list event :=
  (fun f => EvWrite (if belongsToDeviceUnderTest f then pe else ps)
                    (compose_line fmt self incdirs f))
    <$> List.filter eligible files.

(** The lines bound for the emulation filelist ([dut = true]) or for the
    simulation filelist ([dut = false]), in input order. *)
Definition routed_lines (fmt : Py.value -> string) (self : Palladium)
    (dut : bool) : list string :=
  loop_lines fmt self (snd (_get_fileset_files self)) dut
             (fst (_get_fileset_files self)).

(** The bytes of a file that received the given writes in order. *)
Definition file_bytes (chunks : list string) : string :=
  foldr String.append "" chunks.

(** The file operations of a run in which both files open, and the world
    such a run leaves behind. *)
Definition run_events (fmt : Py.value -> string) (self : Palladium)
    : list event :=
  [EvOpen (emu_filelist_file self); EvOpen (sim_filelist_file self)]
  ++ loop_events fmt self (snd (_get_fileset_files self))
       (emu_filelist_file self) (sim_filelist_file self)
       (fst (_get_fileset_files self))
  ++ [EvClose (emu_filelist_file self); EvClose (sim_filelist_file self)].

Definition world_after (fmt : Py.value -> string) (self : Palladium)
    (w : world) : world :=
  mkWorld
    (<[sim_filelist_file self := file_bytes (routed_lines fmt self false)]>
       (<[emu_filelist_file self := file_bytes (routed_lines fmt self true)]>
          (disk w)))
    (open_errno w)
    (delete (S (next_fd w))
       (delete (next_fd w)
          (<[S (next_fd w) := sim_filelist_file self]>
             (<[next_fd w := emu_filelist_file self]> (fds w)))))
    (S (S (next_fd w)))
    (trace w ++ run_events fmt self).

(** Observations on a trace: the data written to a path, and all writes. *)
Definition writes_to (path : string) (tr : list event) : list string :=
  omap (fun e => match e with
                 | EvWrite p d => if String.eqb p path then Some d else None
                 | _ => None
                 end) tr.

Definition is_write (e : event) : bool :=
  match e with EvWrite _ _ => true | _ => false end.

(** Number of line terminators in a text. *)
Fixpoint count_newlines (s : string) : nat :=
  match s with
  | EmptyString => 0
  | String c rest =>
      (if Ascii.eqb c "010"%char then 1 else 0) + count_newlines rest
  end.

(** ** Concrete inputs used to exercise the statements *)

Module Sample.

Definition fmt : Py.value -> string := param_value_str_spec " ".

Definition dut_sv : File.t :=
  File.mk "dut.sv" "systemVerilogSource" (Some "worklib") None
          (Some (Py.VStr "dut")).
Definition tb_v : File.t :=
  File.mk "tb.v" "verilogSource" None None None.
Definition defs_vh : File.t :=
  File.mk "defs.vh" "verilogSource" None (Some (Py.VBool false))
          (Some (Py.VStr "dut")).
Definition readme : File.t :=
  File.mk "README" "user" None None (Some (Py.VStr "dut")).
Definition model_v : File.t :=
  File.mk "model.v" "verilogSource" (Some "") None (Some (Py.VStr "tb")).

Definition self : Palladium :=
  mkPalladium "/build" "top" [("FOO", Py.VInt 1)] [] ∅
              ([dut_sv], ["/inc"]).

Definition self_mixed : Palladium :=
  mkPalladium "build/" "soc"
              [("FOO", Py.VInt 1); ("EMPTY", Py.VStr "")]
              [("WIDTH", Py.VInt 32); ("FAST", Py.VBool true)]
              {[ "vlan_opts" := OptList ["-64bit"; "-access +r"] ]}
              ([dut_sv; defs_vh; tb_v; readme; model_v], ["/inc"; "rtl/inc"]).

Definition fresh : world := mkWorld ∅ (fun _ => None) ∅ 3 [].

Definition stale : world :=
  mkWorld {[ "/build/top.emu.f" := "old emu"; "/build/top.sim.f" := "old sim" ]}
          (fun _ => None) {[ 0 := "/dev/stdin" ]} 7 [EvOpen "/dev/stdin"].

Definition mid_run : world :=
  mkWorld {[ "build/soc.emu.f" := ""; "build/soc.sim.f" := "" ]}
          (fun _ => None)
          {[ 3 := "build/soc.emu.f"; 4 := "build/soc.sim.f" ]} 5
          [EvOpen "build/soc.emu.f"; EvOpen "build/soc.sim.f"].

Definition emu_denied : world :=
  mkWorld ∅ (fun p => if String.eqb p "/build/top.emu.f" then Some 13%Z else None)
          ∅ 3 [].

Definition sim_denied : world :=
  mkWorld ∅ (fun p => if String.eqb p "/build/top.sim.f" then Some 28%Z else None)
          ∅ 3 [].

End Sample.

(** ** The other members of the class

    [get_doc] describes the options a core file may set for this tool, and
    [_dump] prints the attributes of the object for debugging. *)

Record attr_doc := mkAttrDoc {
  doc_name : string;
  doc_type : string;
  doc_desc : string;
}.

Record tool_doc := mkToolDoc {
  description : string;
  members : list attr_doc;
  lists : list attr_doc;
}.

Definition get_doc (api_ver : Z) : tool_doc :=
  {| description := "Palladium from Cadence Design System.";
     members :=
       [mkAttrDoc "hw_model" "String" "Palladium accellerator model name."];
     lists :=
       [mkAttrDoc "vlan_opts" "String"
          "Additional options for Palladium SV compilation.";
        mkAttrDoc "xrun_opts" "String"
          "Additional options for Palladium elaboration."] |}.

Definition with_tool_options (self : Palladium)
    (opts : gmap string tool_option) : Palladium :=
  {| work_root := work_root self;
     name := name self;
     vlogdefine := vlogdefine self;
     vlogparam := vlogparam self;
     tool_options := opts;
     _get_fileset_files := _get_fileset_files self |}.

(** What [_dump] tells apart in the value of an attribute: [None], a
    dictionary, a list, and anything else.  The items of a list and the
    values of the last kind are printed through [str]; they are kept as the
    text [str] gives. *)
Inductive attr_value :=
| AttrNone
| AttrDict (d : list (string * Py.value))
| AttrList (l : list string)
| AttrOther (text : string).

#[global] Instance attr_value_eq_dec : EqDecision attr_value.
Proof. solve_decision. Defined.

(** [s.endswith(suffix)]. *)
Fixpoint endswith (s suffix : string) : bool :=
  if String.eqb s suffix then true
  else match s with
       | EmptyString => false
       | String _ rest => endswith rest suffix
       end.

(** [sorted(items, key=lambda x: x[0])]: a stable sort on the keys, here by
    insertion from the right. *)
Fixpoint insert_by_key (x : string * attr_value)
    (l : list (string * attr_value)) : list (string * attr_value) :=
  match l with
  | [] => [x]
  | y :: rest =>
      if String.leb (fst x) (fst y) then x :: y :: rest
      else y :: insert_by_key x rest
  end.

Definition sorted_by_key (l : list (string * attr_value))
    : list (string * attr_value) :=
  foldr insert_by_key [] l.

(** [print(line)]: the standard output is the list of the lines printed. *)
Definition print (line : string) (out : list string) : list string :=
  out ++ [line].

(** The body of the loop of [_dump], for one attribute. *)
Definition dump_item (fmt : Py.value -> string) (I : string)
    (out : list string) (kv : string * attr_value) : list string :=
  let '(k, v) := kv in
  if endswith k "env" then out
  else
    match v with
    | AttrNone => print (I +:+ "- " +:+ k +:+ ": None") out
    | AttrDict d =>
        if Nat.eqb (length d) 0
        then print (I +:+ "- " +:+ k +:+ ": {}") out
        else
          fold_left
            (fun out '(k2, v2) =>
               print (I +:+ "   - " +:+ k2 +:+ ": " +:+ fmt v2) out)
            d (print (I +:+ "- " +:+ k +:+ ":") out)
    | AttrList l =>
        if Nat.eqb (length l) 0
        then print (I +:+ "- " +:+ k +:+ ": []") out
        else
          fold_left (fun out v2 => print (I +:+ "   - " +:+ v2) out)
                    l (print (I +:+ "- " +:+ k +:+ ":") out)
    | AttrOther text => print (I +:+ "- " +:+ k +:+ ": " +:+ text) out
    end.

(** [_dump(self, I)], with the items of [self.__dict__] in the order of the
    dictionary: the lines it prints. *)
Definition _dump (fmt : Py.value -> string)
    (self_dict : list (string * attr_value)) (I : string) : list string :=
  print "" (fold_left (dump_item fmt I) (sorted_by_key self_dict) []).

(** Order of the keys, the number of entries of an attribute, and the
    attributes [_dump] does not skip. *)
Definition key_le (x y : string * attr_value) : Prop :=
  String.le (fst x) (fst y).

Definition key_lt (x y : string * attr_value) : Prop :=
  String.le (fst x) (fst y) /\ fst x <> fst y.

Definition attr_size (v : attr_value) : nat :=
  match v with
  | AttrDict d => length d
  | AttrList l => length l
  | AttrNone | AttrOther _ => 0
  end.

Definition dumped (kv : string * attr_value) : bool :=
  negb (endswith (fst kv) "env").

#[global] Instance key_le_dec : RelDecision key_le.
Proof. intros x y. unfold key_le. apply _. Defined.

Module DumpSample.

Definition self_dict : list (string * attr_value) :=
  [("work_root", AttrOther "/build");
   ("name", AttrOther "top");
   ("env", AttrDict [("PATH", Py.VStr "/bin")]);
   ("jinja_env", AttrOther "<jinja2.environment.Environment>");
   ("vlogdefine", AttrDict [("FOO", Py.VInt 1); ("EMPTY", Py.VStr "")]);
   ("vlogparam", AttrDict []);
   ("files", AttrList ["dut.sv"; "tb.v"]);
   ("vpi_modules", AttrList []);
   ("toplevel", AttrNone)].

Definition self_dict_shuffled : list (string * attr_value) :=
  [("toplevel", AttrNone);
   ("files", AttrList ["dut.sv"; "tb.v"]);
   ("vlogparam", AttrDict []);
   ("jinja_env", AttrOther "<jinja2.environment.Environment>");
   ("name", AttrOther "top");
   ("vlogdefine", AttrDict [("FOO", Py.VInt 1); ("EMPTY", Py.VStr "")]);
   ("vpi_modules", AttrList []);
   ("env", AttrDict [("PATH", Py.VStr "/bin")]);
   ("work_root", AttrOther "/build")].

Definition previous_run : world :=
  mkWorld {[ "/build/top.emu.f" := "old emu"; "/build/top.sim.f" := "old sim";
             "/build/notes.txt" := "keep" ]}
          (fun p => if String.eqb p "/build/top.sim.f" then Some 13%Z else None)
          ∅ 3 [].

End DumpSample.

Module IoSample.

(** The device is full: the buffered lines of the emulation filelist cannot
    be flushed when it is closed (error 28, no file name attached). *)
Definition device_full : faults :=
  mkFaults (fun _ _ => None)
           (fun p => if String.eqb p "/build/top.emu.f"
                     then Some (OSError 28 "") else None).

(** A line with a character the encoding of the output lacks. *)
Definition no_encoding : faults :=
  mkFaults (fun _ data =>
              if String.eqb data
                   ("+define+FOO=1 +incdir+/inc tb.v" +:+ Py.newline)
              then Some (ValueError "UnicodeEncodeError") else None)
           (fun _ => None).

Definition no_faults : faults := mkFaults (fun _ _ => None) (fun _ => None).

End IoSample.

(** ** Auxiliary facts on strings, paths and the monad *)

Lemma string_app_nil_r (s : string) : s +:+ "" = s.
Proof. induction s as [|c s IH]; [reflexivity|]. change (String c (s +:+ "") = String c s). by rewrite IH. Qed.

Lemma string_app_assoc (a b c : string) : (a +:+ b) +:+ c = a +:+ b +:+ c.
Proof.
  induction a as [|x a IH]; [reflexivity|].
  change (String x ((a +:+ b) +:+ c) = String x (a +:+ b +:+ c)).
  by rewrite IH.
Qed.

Lemma file_bytes_cons (x : string) (xs : list string) :
  file_bytes (x :: xs) = x +:+ file_bytes xs.
Proof. reflexivity. Qed.

Lemma prefix_empty (s : string) : String.prefix "" s = true.
Proof. by destruct s. Qed.

Lemma startswith_sep_suffix (n : string) :
  Py.startswith (n +:+ ".emu.f") "/" = Py.startswith (n +:+ ".sim.f") "/".
Proof.
  destruct n as [|c n]; [reflexivity|].
  unfold Py.startswith.
  change (String.prefix "/" (String c (n +:+ ".emu.f"))
          = String.prefix "/" (String c (n +:+ ".sim.f"))).
  cbn [String.prefix]. by rewrite !prefix_empty.
Qed.

(** The two filelists never share a path. *)
Lemma filelist_paths_differ (self : Palladium) :
  emu_filelist_file self <> sim_filelist_file self.
Proof.
  unfold emu_filelist_file, sim_filelist_file, Py.os_path_join.
  rewrite startswith_sep_suffix.
  destruct (Py.startswith _ _); [|destruct (_ || _)]; intros H.
  - apply (inj (String.app _)) in H. discriminate H.
  - do 2 apply (inj (String.app _)) in H. discriminate H.
  - do 3 apply (inj (String.app _)) in H. discriminate H.
Qed.

Lemma fold_left_snoc {A B} (step : list B -> A -> list B) (g : A -> B)
    (xs : list A) :
  (forall acc x, step acc x = acc ++ [g x]) ->
  forall acc, fold_left step xs acc = acc ++ (g <$> xs).
Proof.
  intros Hstep. induction xs as [|x xs IH]; intros acc; simpl.
  - by rewrite app_nil_r.
  - rewrite IH, Hstep, <- app_assoc. reflexivity.
Qed.

Lemma for_each_app {A} (body : A -> M unit) (xs ys : list A) (w : world) :
  for_each body (xs ++ ys) w = (for_each body xs ;; for_each body ys) w.
Proof.
  revert w. induction xs as [|x xs IH]; intros w; simpl.
  - reflexivity.
  - unfold bind in *. destruct (body x w) as [[[]|e] w1]; [|reflexivity].
    apply IH.
Qed.

(** ** One turn of the loop, and the whole loop *)

Section Loop.

Variable fmt : Py.value -> string.
Variable self : Palladium.
Variable incdirs : list string.
Variables efh sfh : nat.

(** A file that is not eligible leaves the world as it is. *)
Lemma loop_body_skip (f : File.t) (w : world) :
  eligible f = false ->
  loop_body fmt self incdirs efh sfh f w = (Ok tt, w).
Proof.
  unfold eligible, is_verilog_kind, isIncludeOnly, loop_body. intros H.
  destruct (_ || _); [|reflexivity].
  destruct (Py.hasattr _); [reflexivity|discriminate H].
Qed.

(** An eligible file costs one write, on the file object its [partof]
    selects. *)
Lemma loop_body_emit (f : File.t) (w : world) :
  eligible f = true ->
  loop_body fmt self incdirs efh sfh f w
  = write (if belongsToDeviceUnderTest f then efh else sfh)
          (compose_line fmt self incdirs f) w.
Proof.
  unfold eligible, is_verilog_kind, isIncludeOnly, loop_body,
    belongsToDeviceUnderTest, compose_line.
  intros H. destruct (_ || _); [|discriminate H].
  destruct (Py.hasattr (File.is_include_file f)); [discriminate H|].
  destruct (File.partof f) as [v|]; simpl; [|reflexivity].
  destruct (Py.eq_str v "dut"); reflexivity.
Qed.

Variables pe ps : string.
Hypothesis paths_differ : pe <> ps.

Lemma loop_lines_cons (dut : bool) (f : File.t) (files : list File.t) :
  loop_lines fmt self incdirs dut (f :: files)
  = if eligible f && Bool.eqb (belongsToDeviceUnderTest f) dut
    then compose_line fmt self incdirs f :: loop_lines fmt self incdirs dut files
    else loop_lines fmt self incdirs dut files.
Proof.
  unfold loop_lines. cbn [List.filter].
  destruct (eligible f && _); reflexivity.
Qed.

Lemma loop_events_cons (f : File.t) (files : list File.t) :
  loop_events fmt self incdirs pe ps (f :: files)
  = if eligible f
    then EvWrite (if belongsToDeviceUnderTest f then pe else ps)
                 (compose_line fmt self incdirs f)
         :: loop_events fmt self incdirs pe ps files
    else loop_events fmt self incdirs pe ps files.
Proof.
  unfold loop_events. cbn [List.filter].
  destruct (eligible f); reflexivity.
Qed.

Lemma for_each_loop_body (files : list File.t) :
  forall (w : world) (ce cs : string),
    fds w !! efh = Some pe ->
    fds w !! sfh = Some ps ->
    disk w !! pe = Some ce ->
    disk w !! ps = Some cs ->
    for_each (loop_body fmt self incdirs efh sfh) files w
    = (Ok tt,
       mkWorld (<[ps := cs +:+ file_bytes (loop_lines fmt self incdirs false files)]>
                  (<[pe := ce +:+ file_bytes (loop_lines fmt self incdirs true files)]> (disk w)))
               (open_errno w) (fds w) (next_fd w)
               (trace w ++ loop_events fmt self incdirs pe ps files)).
Proof.
  induction files as [|f files IH]; intros w ce cs Hefh Hsfh Hce Hcs.
  - destruct w as [d oe fd nx tr]; simpl in *. unfold ret. do 2 f_equal.
    + unfold loop_lines; simpl. rewrite !string_app_nil_r.
      rewrite (insert_id d pe ce Hce). by rewrite insert_id.
    + by rewrite app_nil_r.
  - cbn [for_each]. unfold bind.
    rewrite !loop_lines_cons, loop_events_cons.
    destruct (eligible f) eqn:Hel; cbn [andb].
    + rewrite loop_body_emit by done. unfold write.
      destruct (belongsToDeviceUnderTest f) eqn:Hdut; cbn [Bool.eqb].
      * rewrite Hefh, Hce. cbn [default].
        rewrite (IH _ (ce +:+ compose_line fmt self incdirs f) cs);
          cbn [fds disk trace open_errno next_fd]; try done.
        -- rewrite file_bytes_cons, insert_insert_eq, string_app_assoc.
           rewrite <- app_assoc. reflexivity.
        -- by rewrite lookup_insert_eq.
        -- by rewrite lookup_insert_ne.
      * rewrite Hsfh, Hcs. cbn [default].
        rewrite (IH _ ce (cs +:+ compose_line fmt self incdirs f));
          cbn [fds disk trace open_errno next_fd]; try done.
        -- rewrite file_bytes_cons, string_app_assoc.
           rewrite (insert_insert_ne _ pe ps) by done.
           rewrite insert_insert_eq, <- app_assoc. reflexivity.
        -- by rewrite lookup_insert_ne.
        -- by rewrite lookup_insert_eq.
    + rewrite loop_body_skip by done. by apply IH.
Qed.

End Loop.

(** ** The whole method *)

Section Run.

Variable fmt : Py.value -> string.
Variable self : Palladium.

Lemma configure_main_ok (w : world) :
  open_errno w (emu_filelist_file self) = None ->
  open_errno w (sim_filelist_file self) = None ->
  configure_main fmt self w = (Ok tt, world_after fmt self w).
Proof.
  intros He Hs. pose proof (filelist_paths_differ self) as Hne.
  unfold configure_main, world_after, routed_lines, run_events.
  destruct (_get_fileset_files self) as [files incdirs]. cbn [fst snd].
  unfold bind at 1. unfold open_w at 1. rewrite He.
  unfold bind at 1. unfold open_w at 1. cbn [open_errno]. rewrite Hs.
  cbn [next_fd]. unfold bind at 1.
  rewrite (for_each_loop_body fmt self incdirs (next_fd w) (S (next_fd w))
             (emu_filelist_file self) (sim_filelist_file self) Hne files
             _ "" "");
    cbn [fds disk trace open_errno next_fd].
  - unfold bind, close. cbn [fds disk trace open_errno next_fd].
    rewrite lookup_insert_ne by lia. rewrite lookup_insert_eq.
    cbn [fds disk trace open_errno next_fd].
    rewrite lookup_delete_ne by lia. rewrite lookup_insert_eq.
    do 2 f_equal.
    + change ("" +:+ ?x) with x. apply map_eq. intros p.
      destruct (decide (p = sim_filelist_file self)) as [->|Hps];
        [by rewrite !lookup_insert_eq|].
      destruct (decide (p = emu_filelist_file self)) as [->|Hpe].
      * rewrite !(lookup_insert_ne _ (sim_filelist_file self)) by done.
        by rewrite !lookup_insert_eq.
      * by repeat (rewrite lookup_insert_ne by done).
    + rewrite <- !app_assoc. reflexivity.
  - rewrite lookup_insert_ne by lia. by rewrite lookup_insert_eq.
  - by rewrite lookup_insert_eq.
  - rewrite lookup_insert_ne by done. by rewrite lookup_insert_eq.
  - by rewrite lookup_insert_eq.
Qed.

Lemma configure_main_emu_fails (w : world) (errno : Z) :
  open_errno w (emu_filelist_file self) = Some errno ->
  configure_main fmt self w
  = (Raise (OSError errno (emu_filelist_file self)),
     mkWorld (disk w) (open_errno w) (fds w) (next_fd w)
             (trace w ++ [EvOpenFailed (emu_filelist_file self) errno])).
Proof.
  intros He. unfold configure_main.
  destruct (_get_fileset_files self) as [files incdirs].
  unfold bind at 1. unfold open_w at 1. by rewrite He.
Qed.

Lemma configure_main_sim_fails (w : world) (errno : Z) :
  open_errno w (emu_filelist_file self) = None ->
  open_errno w (sim_filelist_file self) = Some errno ->
  configure_main fmt self w
  = (Raise (OSError errno (sim_filelist_file self)),
     mkWorld (<[emu_filelist_file self := ""]> (disk w)) (open_errno w)
             (<[next_fd w := emu_filelist_file self]> (fds w))
             (S (next_fd w))
             (trace w ++ [EvOpen (emu_filelist_file self);
                          EvOpenFailed (sim_filelist_file self) errno])).
Proof.
  intros He Hs. unfold configure_main.
  destruct (_get_fileset_files self) as [files incdirs].
  unfold bind at 1. unfold open_w at 1. rewrite He.
  unfold bind at 1. unfold open_w at 1. cbn [open_errno]. rewrite Hs.
  cbn [fds disk trace open_errno next_fd]. by rewrite <- app_assoc.
Qed.

End Run.

(** ** What the trace of a run shows *)

Section Observations.

Variable fmt : Py.value -> string.
Variable self : Palladium.
Variable incdirs : list string.
Variables pe ps : string.
Hypothesis paths_differ : pe <> ps.

Lemma filter_is_write_loop_events (files : list File.t) :
  List.filter is_write (loop_events fmt self incdirs pe ps files)
  = loop_events fmt self incdirs pe ps files.
Proof.
  unfold loop_events.
  induction (List.filter eligible files) as [|f l IH]; [reflexivity|].
  cbn. by rewrite IH.
Qed.

Lemma writes_to_loop_events (files : list File.t) :
  writes_to pe (loop_events fmt self incdirs pe ps files)
  = loop_lines fmt self incdirs true files
  /\ writes_to ps (loop_events fmt self incdirs pe ps files)
     = loop_lines fmt self incdirs false files.
Proof.
  assert (Hps : String.eqb ps pe = false) by (by apply String.eqb_neq).
  assert (Hpe : String.eqb pe ps = false) by (by apply String.eqb_neq).
  induction files as [|f files [IHe IHs]]; [done|].
  rewrite !loop_lines_cons, loop_events_cons.
  destruct (eligible f); cbn [andb]; [|done].
  unfold writes_to in *. cbn [omap list_omap].
  destruct (belongsToDeviceUnderTest f); cbn [Bool.eqb];
    rewrite String.eqb_refl, ?Hps, ?Hpe, IHe, IHs; done.
Qed.

Lemma length_loop_lines (files : list File.t) :
  length (loop_lines fmt self incdirs true files)
  + length (loop_lines fmt self incdirs false files)
  = length (List.filter eligible files).
Proof.
  induction files as [|f files IH]; [reflexivity|].
  rewrite !loop_lines_cons. cbn [List.filter].
  destruct (eligible f); cbn [andb]; [|done].
  destruct (belongsToDeviceUnderTest f); cbn [Bool.eqb length]; lia.
Qed.

Lemma loop_events_Forall2 (files : list File.t) :
  Forall2 (fun f e =>
             e = EvWrite (if belongsToDeviceUnderTest f then pe else ps)
                         (compose_line fmt self incdirs f))
          (List.filter eligible files)
          (loop_events fmt self incdirs pe ps files).
Proof.
  unfold loop_events.
  induction (List.filter eligible files) as [|f l IH]; constructor; done.
Qed.

End Observations.

Lemma writes_to_app (p : string) (xs ys : list event) :
  writes_to p (xs ++ ys) = writes_to p xs ++ writes_to p ys.
Proof. apply omap_app. Qed.

Lemma count_newlines_app (a b : string) :
  count_newlines (a +:+ b) = count_newlines a + count_newlines b.
Proof.
  induction a as [|c a IH]; [reflexivity|].
  change (count_newlines (String c (a +:+ b))
          = count_newlines (String c a) + count_newlines b).
  cbn [count_newlines]. rewrite IH. lia.
Qed.

Lemma count_newlines_file_bytes (chunks : list string) :
  Forall (fun c => count_newlines c = 1) chunks ->
  count_newlines (file_bytes chunks) = length chunks.
Proof.
  induction 1 as [|c chunks Hc _ IH]; [reflexivity|].
  rewrite file_bytes_cons, count_newlines_app, Hc, IH. reflexivity.
Qed.

Lemma run_writes (fmt : Py.value -> string) (self : Palladium) :
  List.filter is_write (run_events fmt self)
  = loop_events fmt self (snd (_get_fileset_files self))
      (emu_filelist_file self) (sim_filelist_file self)
      (fst (_get_fileset_files self))
  /\ writes_to (emu_filelist_file self) (run_events fmt self)
     = routed_lines fmt self true
  /\ writes_to (sim_filelist_file self) (run_events fmt self)
     = routed_lines fmt self false.
Proof.
  pose proof (filelist_paths_differ self) as Hne.
  destruct (writes_to_loop_events fmt self (snd (_get_fileset_files self))
              _ _ Hne (fst (_get_fileset_files self))) as [He Hs].
  unfold run_events, routed_lines. split; [|split].
  - rewrite !List.filter_app, filter_is_write_loop_events.
    cbn. by rewrite app_nil_r.
  - rewrite !writes_to_app, He. cbn. by rewrite app_nil_r.
  - rewrite !writes_to_app, Hs. cbn. by rewrite app_nil_r.
Qed.

Lemma loop_lines_newlines (fmt : Py.value -> string) (self : Palladium)
    (incdirs : list string) (dut : bool) (files : list File.t) :
  Forall (fun f => count_newlines (compose_line fmt self incdirs f) = 1)
         (List.filter eligible files) ->
  Forall (fun c => count_newlines c = 1)
         (loop_lines fmt self incdirs dut files).
Proof.
  induction files as [|f files IH]; [constructor|].
  rewrite loop_lines_cons. cbn [List.filter].
  destruct (eligible f); cbn [andb]; [|done].
  intros [Hf Hrest]%Forall_cons.
  destruct (Bool.eqb _ _); [constructor|]; auto.
Qed.

Lemma disk_after (fmt : Py.value -> string) (self : Palladium) (w : world) :
  disk (world_after fmt self w) !! emu_filelist_file self
  = Some (file_bytes (routed_lines fmt self true))
  /\ disk (world_after fmt self w) !! sim_filelist_file self
     = Some (file_bytes (routed_lines fmt self false)).
Proof.
  pose proof (filelist_paths_differ self) as Hne.
  unfold world_after; cbn [disk]. split.
  - rewrite lookup_insert_ne by done. by rewrite lookup_insert_eq.
  - by rewrite lookup_insert_eq.
Qed.

(** ** The claims *)

(** C1. When both filelists open, the writes of a run are, one for one and
    in input order, the eligible descriptors of the input: each eligible
    descriptor has exactly one write, carrying its line, on the emulation
    filelist or on the simulation filelist and not on the other; files get
    exactly the bytes of these writes, and the lines of the two files
    together are as many as the eligible descriptors (also when counted as
    line terminators in the bytes, as soon as no line has one inside). *)
Theorem C1_one_line_per_eligible_file
    (fmt : Py.value -> string) (self : Palladium) (w : world) :
  open_errno w (emu_filelist_file self) = None ->
  open_errno w (sim_filelist_file self) = None ->
  exists w' evs,
    configure_main fmt self w = (Ok tt, w')
    /\ trace w' = trace w ++ evs
    /\ Forall2
         (fun f e =>
            (e = EvWrite (emu_filelist_file self) (line_of fmt self f)
             /\ e <> EvWrite (sim_filelist_file self) (line_of fmt self f))
            \/ (e = EvWrite (sim_filelist_file self) (line_of fmt self f)
                /\ e <> EvWrite (emu_filelist_file self) (line_of fmt self f)))
         (List.filter eligible (fst (_get_fileset_files self)))
         (List.filter is_write evs)
    /\ length (writes_to (emu_filelist_file self) evs)
       + length (writes_to (sim_filelist_file self) evs)
       = length (List.filter eligible (fst (_get_fileset_files self)))
    /\ disk w' !! emu_filelist_file self
       = Some (file_bytes (writes_to (emu_filelist_file self) evs))
    /\ disk w' !! sim_filelist_file self
       = Some (file_bytes (writes_to (sim_filelist_file self) evs))
    /\ (Forall (fun f => count_newlines (line_of fmt self f) = 1)
               (List.filter eligible (fst (_get_fileset_files self))) ->
        count_newlines (file_bytes (writes_to (emu_filelist_file self) evs))
        + count_newlines (file_bytes (writes_to (sim_filelist_file self) evs))
        = length (List.filter eligible (fst (_get_fileset_files self)))).
Proof.
  intros He Hs. pose proof (filelist_paths_differ self) as Hne.
  destruct (run_writes fmt self) as (Hw & Hwe & Hws).
  destruct (disk_after fmt self w) as [Hde Hds].
  exists (world_after fmt self w), (run_events fmt self).
  rewrite Hw, Hwe, Hws, Hde, Hds.
  split; [by apply configure_main_ok|].
  split; [reflexivity|].
  split.
  { eapply Forall2_impl; [apply loop_events_Forall2|].
    intros f e ->. unfold line_of.
    destruct (belongsToDeviceUnderTest f); [left|right];
      (split; [reflexivity|congruence]). }
  split; [apply length_loop_lines|].
  do 2 (split; [reflexivity|]).
  intros Hnl. unfold routed_lines.
  rewrite !count_newlines_file_bytes by (by apply loop_lines_newlines).
  apply length_loop_lines.
Qed.

Lemma C1_witness :
  open_errno Sample.fresh (emu_filelist_file Sample.self_mixed) = None
  /\ open_errno Sample.fresh (sim_filelist_file Sample.self_mixed) = None
  /\ exists w' evs,
       configure_main Sample.fmt Sample.self_mixed Sample.fresh = (Ok tt, w')
       /\ trace w' = trace Sample.fresh ++ evs
       /\ length (writes_to (emu_filelist_file Sample.self_mixed) evs)
          + length (writes_to (sim_filelist_file Sample.self_mixed) evs)
          = 3.
Proof.
  split; [reflexivity|]. split; [reflexivity|].
  destruct (C1_one_line_per_eligible_file Sample.fmt Sample.self_mixed
              Sample.fresh eq_refl eq_refl)
    as (w' & evs & Hrun & Htr & _ & Hlen & _).
  exists w', evs. split; [exact Hrun|]. split; [exact Htr|]. exact Hlen.
Defined.

Lemma loop_body_with_files (fmt : Py.value -> string) (self : Palladium)
    (files : list File.t) :
  loop_body fmt (with_files self files) = loop_body fmt self.
Proof. reflexivity. Qed.

Lemma for_each_drop {A} (body : A -> M unit) (x : A) (xs ys : list A)
    (w : world) :
  (forall w1, body x w1 = (Ok tt, w1)) ->
  for_each body (xs ++ x :: ys) w = for_each body (xs ++ ys) w.
Proof.
  intros Hskip. rewrite !for_each_app. unfold bind.
  destruct (for_each body xs w) as [[[]|e] w1]; [|reflexivity].
  cbn [for_each]. unfold bind. by rewrite Hskip.
Qed.

Lemma configure_main_drop (fmt : Py.value -> string) (self : Palladium)
    (f : File.t) (l1 l2 : list File.t) (w : world) :
  eligible f = false ->
  configure_main fmt (with_files self (l1 ++ f :: l2)) w
  = configure_main fmt (with_files self (l1 ++ l2)) w.
Proof.
  intros Hel. unfold configure_main. cbn [with_files _get_fileset_files].
  change (emu_filelist_file (with_files self ?l)) with (emu_filelist_file self).
  change (sim_filelist_file (with_files self ?l)) with (sim_filelist_file self).
  rewrite !loop_body_with_files. unfold bind at 1 5.
  destruct (open_w (emu_filelist_file self) w) as [[efh|e] w1]; [|reflexivity].
  unfold bind at 1 4.
  destruct (open_w (sim_filelist_file self) w1) as [[sfh|e] w2]; [|reflexivity].
  unfold bind at 1 3.
  rewrite for_each_drop; [reflexivity|].
  intros w3. by apply loop_body_skip.
Qed.

(** C2. A descriptor whose kind is neither Verilog nor SystemVerilog, or
    that is include-only, puts nothing into either file, whatever its other
    attributes are: its turn of the loop leaves the world untouched, and a
    run over an input with the descriptor in it is the run over the input
    without it. *)
Theorem C2_ineligible_contributes_nothing
    (fmt : Py.value -> string) (self : Palladium) (f : File.t) :
  is_verilog_kind f = false \/ isIncludeOnly f = true ->
  (forall incdirs efh sfh w,
      loop_body fmt self incdirs efh sfh f w = (Ok tt, w))
  /\ (forall l1 l2 w,
        configure_main fmt (with_files self (l1 ++ f :: l2)) w
        = configure_main fmt (with_files self (l1 ++ l2)) w).
Proof.
  intros H.
  assert (Hel : eligible f = false).
  { unfold eligible. destruct H as [-> | ->]; [reflexivity|].
    apply andb_false_r. }
  split.
  - intros. by apply loop_body_skip.
  - intros. by apply configure_main_drop.
Qed.

Lemma C2_witness :
  (is_verilog_kind Sample.readme = false
   /\ belongsToDeviceUnderTest Sample.readme = true)
  /\ configure_main Sample.fmt
       (with_files Sample.self ([Sample.dut_sv] ++ Sample.readme :: [Sample.tb_v]))
       Sample.stale
     = configure_main Sample.fmt
         (with_files Sample.self ([Sample.dut_sv] ++ [Sample.tb_v]))
         Sample.stale.
Proof.
  split; [split; reflexivity|].
  apply (C2_ineligible_contributes_nothing Sample.fmt Sample.self Sample.readme).
  left. reflexivity.
Defined.

(** C8. The skip of included files looks at the presence of the
    [is_include_file] attribute only: a descriptor that has it, whatever the
    value ([False], [None], the empty string, ...), puts nothing into either
    file. *)
Theorem C8_include_skip_tests_presence
    (fmt : Py.value -> string) (self : Palladium) (f : File.t)
    (v : Py.value) :
  File.is_include_file f = Some v ->
  (forall incdirs efh sfh w,
      loop_body fmt self incdirs efh sfh f w = (Ok tt, w))
  /\ (forall l1 l2 w,
        configure_main fmt (with_files self (l1 ++ f :: l2)) w
        = configure_main fmt (with_files self (l1 ++ l2)) w).
Proof.
  intros Hattr.
  assert (Hel : eligible f = false).
  { unfold eligible, isIncludeOnly. rewrite Hattr. apply andb_false_r. }
  split.
  - intros. by apply loop_body_skip.
  - intros. by apply configure_main_drop.
Qed.

Lemma C8_witness :
  File.is_include_file Sample.defs_vh = Some (Py.VBool false)
  /\ forall w,
       loop_body Sample.fmt Sample.self_mixed ["/inc"] 3 4 Sample.defs_vh w
       = (Ok tt, w).
Proof.
  split; [reflexivity|].
  apply (C8_include_skip_tests_presence Sample.fmt Sample.self_mixed
           Sample.defs_vh (Py.VBool false) eq_refl).
Defined.

Lemma dut_flag_reads_partof (f : File.t) :
  belongsToDeviceUnderTest f
  = bool_decide (File.partof f = Some (Py.VStr "dut")).
Proof.
  unfold belongsToDeviceUnderTest.
  destruct (File.partof f) as [v|]; [|reflexivity].
  destruct v as [ | b | z | s | l]; try reflexivity.
  cbn [Py.eq_str]. destruct (String.eqb_spec s "dut") as [->|Hne].
  - by rewrite bool_decide_eq_true_2.
  - rewrite bool_decide_eq_false_2; [reflexivity|congruence].
Qed.

Lemma routed_lines_by_flag (fmt : Py.value -> string) (self : Palladium) :
  routed_lines fmt self true
  = line_of fmt self <$>
      List.filter (fun f => eligible f && belongsToDeviceUnderTest f)
                  (fst (_get_fileset_files self))
  /\ routed_lines fmt self false
     = line_of fmt self <$>
         List.filter (fun f => eligible f && negb (belongsToDeviceUnderTest f))
                     (fst (_get_fileset_files self)).
Proof.
  unfold routed_lines, loop_lines, line_of. split; f_equal;
    apply List.filter_ext; intros f;
    by destruct (eligible f), (belongsToDeviceUnderTest f).
Qed.

(** C5. When both filelists open, every eligible descriptor has its line,
    followed by a newline, written to the emulation filelist if it is
    flagged as part of the device under test and to the simulation filelist
    otherwise; the files hold these lines in input order. *)
Theorem C5_routing_by_dut_flag
    (fmt : Py.value -> string) (self : Palladium) (w : world) :
  open_errno w (emu_filelist_file self) = None ->
  open_errno w (sim_filelist_file self) = None ->
  exists w' evs,
    configure_main fmt self w = (Ok tt, w')
    /\ trace w' = trace w ++ evs
    /\ Forall2
         (fun f e =>
            e = EvWrite
                  (if belongsToDeviceUnderTest f
                   then emu_filelist_file self else sim_filelist_file self)
                  (Py.join " " (compose_args fmt self
                                  (snd (_get_fileset_files self)) f)
                   +:+ Py.newline))
         (List.filter eligible (fst (_get_fileset_files self)))
         (List.filter is_write evs)
    /\ disk w' !! emu_filelist_file self
       = Some (file_bytes
                 (line_of fmt self <$>
                    List.filter
                      (fun f => eligible f && belongsToDeviceUnderTest f)
                      (fst (_get_fileset_files self))))
    /\ disk w' !! sim_filelist_file self
       = Some (file_bytes
                 (line_of fmt self <$>
                    List.filter
                      (fun f => eligible f && negb (belongsToDeviceUnderTest f))
                      (fst (_get_fileset_files self)))).
Proof.
  intros He Hs.
  destruct (run_writes fmt self) as (Hw & _ & _).
  destruct (disk_after fmt self w) as [Hde Hds].
  destruct (routed_lines_by_flag fmt self) as [Hre Hrs].
  exists (world_after fmt self w), (run_events fmt self).
  rewrite Hw, Hde, Hds, Hre, Hrs.
  split; [by apply configure_main_ok|].
  split; [reflexivity|].
  split; [|done].
  apply (loop_events_Forall2 fmt self).
Qed.

Lemma C5_witness :
  open_errno Sample.stale (emu_filelist_file Sample.self) = None
  /\ open_errno Sample.stale (sim_filelist_file Sample.self) = None
  /\ exists w',
       configure_main Sample.fmt Sample.self Sample.stale = (Ok tt, w')
       /\ disk w' !! "/build/top.emu.f"
          = Some ("-sv -lib worklib +define+FOO=1 +incdir+/inc dut.sv"
                  +:+ Py.newline)
       /\ disk w' !! "/build/top.sim.f" = Some "".
Proof.
  split; [reflexivity|]. split; [reflexivity|].
  destruct (C5_routing_by_dut_flag Sample.fmt Sample.self Sample.stale
              eq_refl eq_refl)
    as (w' & evs & Hrun & _ & _ & Hemu & Hsim).
  exists w'. split; [exact Hrun|]. split; [exact Hemu|exact Hsim].
Defined.

(** C9. An eligible descriptor goes to the emulation filelist only when it
    has a [partof] attribute whose value is the string ['dut']; when the
    attribute is missing or has any other value the line goes to the
    simulation filelist.  This holds turn by turn, and for the bytes the two
    files hold after a run. *)
Theorem C9_emulation_needs_partof_dut
    (fmt : Py.value -> string) (self : Palladium) :
  (forall incdirs efh sfh f w,
      eligible f = true ->
      (File.partof f = Some (Py.VStr "dut") ->
       loop_body fmt self incdirs efh sfh f w
       = write efh (compose_line fmt self incdirs f) w)
      /\ (File.partof f <> Some (Py.VStr "dut") ->
          loop_body fmt self incdirs efh sfh f w
          = write sfh (compose_line fmt self incdirs f) w))
  /\ (forall w,
        open_errno w (emu_filelist_file self) = None ->
        open_errno w (sim_filelist_file self) = None ->
        exists w',
          configure_main fmt self w = (Ok tt, w')
          /\ disk w' !! emu_filelist_file self
             = Some (file_bytes
                       (line_of fmt self <$>
                          List.filter
                            (fun f => eligible f
                                      && bool_decide
                                           (File.partof f = Some (Py.VStr "dut")))
                            (fst (_get_fileset_files self))))
          /\ disk w' !! sim_filelist_file self
             = Some (file_bytes
                       (line_of fmt self <$>
                          List.filter
                            (fun f => eligible f
                                      && negb (bool_decide
                                           (File.partof f = Some (Py.VStr "dut"))))
                            (fst (_get_fileset_files self))))).
Proof.
  split.
  - intros incdirs efh sfh f w Hel.
    rewrite loop_body_emit, dut_flag_reads_partof by done. split; intros H.
    + by rewrite bool_decide_eq_true_2.
    + by rewrite bool_decide_eq_false_2.
  - intros w He Hs.
    destruct (disk_after fmt self w) as [Hde Hds].
    destruct (routed_lines_by_flag fmt self) as [Hre Hrs].
    exists (world_after fmt self w). rewrite Hde, Hds, Hre, Hrs.
    split; [by apply configure_main_ok|].
    split; do 3 f_equal; apply List.filter_ext; intros f;
      by rewrite dut_flag_reads_partof.
Qed.

Lemma C9_witness :
  eligible Sample.model_v = true
  /\ File.partof Sample.model_v = Some (Py.VStr "tb")
  /\ trace (snd (loop_body Sample.fmt Sample.self ["/inc"] 3 4 Sample.model_v
                   Sample.mid_run))
     = trace Sample.mid_run
       ++ [EvWrite "build/soc.sim.f"
             ("+define+FOO=1 +incdir+/inc model.v" +:+ Py.newline)].
Proof.
  split; [reflexivity|]. split; [reflexivity|].
  destruct (C9_emulation_needs_partof_dut Sample.fmt Sample.self) as [Hturn _].
  destruct (Hturn ["/inc"] 3 4 Sample.model_v Sample.mid_run eq_refl)
    as [_ Hsim].
  rewrite Hsim by discriminate. reflexivity.
Defined.

(** The [args] list, group by group. *)
Lemma compose_args_in_order
    (fmt : Py.value -> string) (self : Palladium) (incdirs : list string)
    (f : File.t) :
  compose_args fmt self incdirs f
  = (if String.eqb (File.file_type f) "systemVerilogSource"
     then ["-sv"] else [])
    ++ match File.logical_name f with
       | Some lib => if Py.truthy_str lib then ["-lib " +:+ lib] else []
       | None => []
       end
    ++ ((fun '(k, v) => "+define+" +:+ k +:+ "=" +:+ fmt v) <$> vlogdefine self)
    ++ ((fun '(k, v) => k +:+ "=" +:+ fmt v) <$> vlogparam self)
    ++ ((fun d => "+incdir+" +:+ d) <$> incdirs)
    ++ match tool_options self !! "vlan_opts" with
       | Some o => if opt_truthy o then [Py.join " " (opt_items o)] else []
       | None => []
       end
    ++ [File.name f].
Proof.
  unfold compose_args.
  rewrite (fold_left_snoc _ (fun d => "+incdir+" +:+ d)) by done.
  rewrite (fold_left_snoc _ (fun '(k, v) => k +:+ "=" +:+ fmt v))
    by (by intros acc [k v]).
  rewrite (fold_left_snoc _ (fun '(k, v) => "+define+" +:+ k +:+ "=" +:+ fmt v))
    by (by intros acc [k v]).
  destruct (String.eqb _ _);
    (destruct (File.logical_name f) as [lib|];
       [destruct (Py.truthy_str lib)|]);
    (destruct (tool_options self !! "vlan_opts") as [o|];
       cbn [from_option id]; [destruct (opt_truthy o)|]);
    cbn [app opt_truthy Py.truthy_str String.eqb negb];
    rewrite <- ?app_assoc; reflexivity.
Qed.

(** C3. What is written for an eligible descriptor is its tokens with one
    space between neighbours, then a newline, the tokens being in this
    order: the SystemVerilog flag if the file is SystemVerilog, the library
    token if a library name is set, one token per define, one per compile
    parameter and one per include directory, each group in the order of its
    collection, the joined extra tool options if there are any, and the
    file name last.  This holds of the write of every turn of the loop, of
    the writes of a whole run, and of the bytes the two files hold. *)
Theorem C3_token_order
    (fmt : Py.value -> string) (self : Palladium) :
  let tokens := fun (incdirs : list string) (f : File.t) =>
    (if String.eqb (File.file_type f) "systemVerilogSource"
     then ["-sv"] else [])
    ++ match File.logical_name f with
       | Some lib => if Py.truthy_str lib then ["-lib " +:+ lib] else []
       | None => []
       end
    ++ ((fun '(k, v) => "+define+" +:+ k +:+ "=" +:+ fmt v) <$> vlogdefine self)
    ++ ((fun '(k, v) => k +:+ "=" +:+ fmt v) <$> vlogparam self)
    ++ ((fun d => "+incdir+" +:+ d) <$> incdirs)
    ++ match tool_options self !! "vlan_opts" with
       | Some o =>
           if opt_truthy o then [String.concat " " (opt_items o)] else []
       | None => []
       end
    ++ [File.name f] in
  let text := fun (incdirs : list string) (f : File.t) =>
    String.concat " " (tokens incdirs f) +:+ String "010"%char EmptyString in
  (forall incdirs efh sfh f w,
      eligible f = true ->
      loop_body fmt self incdirs efh sfh f w
      = write (if belongsToDeviceUnderTest f then efh else sfh)
              (text incdirs f) w)
  /\ (forall w,
        open_errno w (emu_filelist_file self) = None ->
        open_errno w (sim_filelist_file self) = None ->
        exists w' evs,
          configure_main fmt self w = (Ok tt, w')
          /\ trace w' = trace w ++ evs
          /\ Forall2
               (fun f e =>
                  exists p, e = EvWrite p (text (snd (_get_fileset_files self)) f))
               (List.filter eligible (fst (_get_fileset_files self)))
               (List.filter is_write evs)
          /\ disk w' !! emu_filelist_file self
             = Some (file_bytes
                       (text (snd (_get_fileset_files self)) <$>
                          List.filter
                            (fun f => eligible f && belongsToDeviceUnderTest f)
                            (fst (_get_fileset_files self))))
          /\ disk w' !! sim_filelist_file self
             = Some (file_bytes
                       (text (snd (_get_fileset_files self)) <$>
                          List.filter
                            (fun f => eligible f
                                      && negb (belongsToDeviceUnderTest f))
                            (fst (_get_fileset_files self))))).
Proof.
  intros tokens text.
  assert (Hline : forall incdirs f,
             compose_line fmt self incdirs f = text incdirs f).
  { intros incdirs f. unfold compose_line, text, tokens.
    by rewrite compose_args_in_order. }
  split.
  - intros incdirs efh sfh f w Hel.
    by rewrite loop_body_emit, Hline.
  - intros w He Hs.
    destruct (run_writes fmt self) as (Hw & _ & _).
    destruct (disk_after fmt self w) as [Hde Hds].
    destruct (routed_lines_by_flag fmt self) as [Hre Hrs].
    exists (world_after fmt self w), (run_events fmt self).
    rewrite Hw, Hde, Hds, Hre, Hrs.
    split; [by apply configure_main_ok|].
    split; [reflexivity|].
    split.
    { eapply Forall2_impl; [apply (loop_events_Forall2 fmt self)|].
      intros f e ->. eexists. by rewrite Hline. }
    split; do 2 f_equal; apply list_fmap_ext; intros i f _;
      unfold line_of; by rewrite Hline.
Qed.

Lemma C3_witness :
  eligible Sample.dut_sv = true
  /\ trace (snd (loop_body Sample.fmt Sample.self_mixed ["/inc"; "rtl/inc"]
                   3 4 Sample.dut_sv Sample.mid_run))
     = trace Sample.mid_run
       ++ [EvWrite "build/soc.emu.f"
             ("-sv -lib worklib +define+FOO=1 +define+EMPTY= WIDTH=32 FAST=True +incdir+/inc +incdir+rtl/inc -64bit -access +r dut.sv"
              +:+ String "010"%char EmptyString)].
Proof.
  split; [reflexivity|].
  destruct (C3_token_order Sample.fmt Sample.self_mixed) as [Hturn _].
  rewrite (Hturn ["/inc"; "rtl/inc"] 3 4 Sample.dut_sv Sample.mid_run eq_refl).
  vm_compute. reflexivity.
Defined.

(** The line of the example in the specification. *)
Example spec_example_line :
  compose_line Sample.fmt Sample.self ["/inc"] Sample.dut_sv
  = "-sv -lib worklib +define+FOO=1 +incdir+/inc dut.sv" +:+ Py.newline.
Proof. vm_compute. reflexivity. Qed.

(** C4, as first stated, fails: a define whose value has the empty text
    gives the token with the equals sign kept, not the bare name. *)
Lemma C4_counterexample :
  In ("EMPTY", Py.VStr "") (vlogdefine Sample.self_mixed)
  /\ Sample.fmt (Py.VStr "") = ""
  /\ compose_args Sample.fmt Sample.self_mixed ["/inc"] Sample.tb_v
     = ["+define+FOO=1"; "+define+EMPTY="; "WIDTH=32"; "FAST=True";
        "+incdir+/inc"; "-64bit -access +r"; "tb.v"]
  /\ ~ In "+define+EMPTY"
         (compose_args Sample.fmt Sample.self_mixed ["/inc"] Sample.tb_v).
Proof.
  split; [right; left; reflexivity|]. split; [reflexivity|].
  split; [vm_compute; reflexivity|].
  vm_compute. intros H. repeat (destruct H as [H|H]; [discriminate H|]). exact H.
Qed.

(** C4, amended. Every entry [(NAME, VALUE)] of the defines gives the token
    [+define+NAME=V], with [V] the text of [VALUE]; the defines form one
    block of the line in the order of the mapping, and the equals sign is
    always there, so that a value with the empty text gives [+define+NAME=]. *)
Theorem C4_define_token_keeps_equals
    (fmt : Py.value -> string) (self : Palladium) (incdirs : list string)
    (f : File.t) :
  (exists pre post,
      compose_args fmt self incdirs f
      = pre
        ++ ((fun '(k, v) => "+define+" +:+ k +:+ "=" +:+ fmt v)
              <$> vlogdefine self)
        ++ post)
  /\ (forall k v,
        In (k, v) (vlogdefine self) ->
        In ("+define+" +:+ k +:+ "=" +:+ fmt v)
           (compose_args fmt self incdirs f)
        /\ (fmt v = "" ->
            In ("+define+" +:+ k +:+ "=") (compose_args fmt self incdirs f))).
Proof.
  assert (Hshape : exists pre post,
             compose_args fmt self incdirs f
             = pre
               ++ ((fun '(k, v) => "+define+" +:+ k +:+ "=" +:+ fmt v)
                     <$> vlogdefine self)
               ++ post).
  { unfold compose_args.
    rewrite (fold_left_snoc _ (fun d => "+incdir+" +:+ d)) by done.
    rewrite (fold_left_snoc _ (fun '(k, v) => k +:+ "=" +:+ fmt v))
      by (by intros acc [k v]).
    rewrite (fold_left_snoc _
               (fun '(k, v) => "+define+" +:+ k +:+ "=" +:+ fmt v))
      by (by intros acc [k v]).
    match goal with
    | |- exists pre post, (if _ then _ else ((?X ++ _) ++ _) ++ _) ++ _ = _ =>
        exists X
    end.
    destruct (opt_truthy _).
    - match goal with
      | |- exists post, ((((_ ++ _) ++ ?P) ++ ?I) ++ ?J) ++ ?N = _ =>
          exists (P ++ I ++ J ++ N)
      end.
      by rewrite <- !app_assoc.
    - match goal with
      | |- exists post, (((_ ++ _) ++ ?P) ++ ?I) ++ ?N = _ =>
          exists (P ++ I ++ N)
      end.
      by rewrite <- !app_assoc. }
  split; [exact Hshape|].
  destruct Hshape as (pre & post & ->). intros k v Hin.
  assert (Htok : In ("+define+" +:+ k +:+ "=" +:+ fmt v)
                    (pre
                     ++ ((fun '(k, v) => "+define+" +:+ k +:+ "=" +:+ fmt v)
                           <$> vlogdefine self)
                     ++ post)).
  { apply in_or_app. right. apply in_or_app. left.
    apply (in_map (fun '(k, v) => "+define+" +:+ k +:+ "=" +:+ fmt v)
             _ (k, v) Hin). }
  split; [exact Htok|].
  intros Hempty. rewrite Hempty in Htok. exact Htok.
Qed.

Lemma C4_witness :
  In ("EMPTY", Py.VStr "") (vlogdefine Sample.self_mixed)
  /\ Sample.fmt (Py.VStr "") = ""
  /\ In "+define+EMPTY="
        (compose_args Sample.fmt Sample.self_mixed ["/inc"] Sample.tb_v).
Proof.
  split; [right; left; reflexivity|]. split; [reflexivity|].
  destruct (C4_define_token_keeps_equals Sample.fmt Sample.self_mixed
              ["/inc"] Sample.tb_v) as [_ Htok].
  destruct (Htok "EMPTY" (Py.VStr "")) as [_ Hbare];
    [right; left; reflexivity|].
  exact (Hbare eq_refl).
Defined.

Lemma disk_after_again (fmt : Py.value -> string) (self : Palladium)
    (w : world) :
  disk (world_after fmt self (world_after fmt self w))
  = disk (world_after fmt self w).
Proof.
  unfold world_after; cbn [disk]. apply map_eq. intros p.
  destruct (decide (p = sim_filelist_file self)) as [->|Hps];
    [by rewrite !lookup_insert_eq|].
  destruct (decide (p = emu_filelist_file self)) as [->|Hpe].
  - rewrite !(lookup_insert_ne _ (sim_filelist_file self)) by done.
    by rewrite !lookup_insert_eq.
  - by repeat (rewrite lookup_insert_ne by done).
Qed.

(** C6. The bytes of the two filelists are a function of the inputs alone:
    two runs on the same inputs, from any two states of the file system in
    which the files open, leave the same bytes in the emulation filelist and
    the same bytes in the simulation filelist; and a second run over the
    result of a first leaves every file as it was. *)
Theorem C6_deterministic_output
    (fmt : Py.value -> string) (self : Palladium) (w1 w2 : world) :
  open_errno w1 (emu_filelist_file self) = None ->
  open_errno w1 (sim_filelist_file self) = None ->
  open_errno w2 (emu_filelist_file self) = None ->
  open_errno w2 (sim_filelist_file self) = None ->
  exists w1' w2' w1'',
    configure_main fmt self w1 = (Ok tt, w1')
    /\ configure_main fmt self w2 = (Ok tt, w2')
    /\ disk w1' !! emu_filelist_file self = disk w2' !! emu_filelist_file self
    /\ disk w1' !! sim_filelist_file self = disk w2' !! sim_filelist_file self
    /\ is_Some (disk w1' !! emu_filelist_file self)
    /\ is_Some (disk w1' !! sim_filelist_file self)
    /\ configure_main fmt self w1' = (Ok tt, w1'')
    /\ disk w1'' = disk w1'.
Proof.
  intros He1 Hs1 He2 Hs2.
  destruct (disk_after fmt self w1) as [Hde1 Hds1].
  destruct (disk_after fmt self w2) as [Hde2 Hds2].
  exists (world_after fmt self w1), (world_after fmt self w2),
    (world_after fmt self (world_after fmt self w1)).
  rewrite Hde1, Hds1, Hde2, Hds2.
  repeat split; eauto using configure_main_ok, disk_after_again.
Qed.

Lemma C6_witness :
  disk (snd (configure_main Sample.fmt Sample.self Sample.fresh))
    !! "/build/top.emu.f"
  = disk (snd (configure_main Sample.fmt Sample.self Sample.stale))
      !! "/build/top.emu.f"
  /\ disk (snd (configure_main Sample.fmt Sample.self Sample.fresh))
       !! "/build/top.sim.f"
     = disk (snd (configure_main Sample.fmt Sample.self Sample.stale))
         !! "/build/top.sim.f".
Proof.
  destruct (C6_deterministic_output Sample.fmt Sample.self Sample.fresh
              Sample.stale eq_refl eq_refl eq_refl eq_refl)
    as (w1' & w2' & w1'' & -> & -> & Hemu & Hsim & _).
  split; [exact Hemu|exact Hsim].
Defined.

(** *** The run over a device with faults *)

Lemma configure_main_on_device (fmt : Py.value -> string) (self : Palladium) :
  configure_main_on write close fmt self = configure_main fmt self.
Proof. reflexivity. Qed.

Section Faults.

Variable ft : faults.
Variable fmt : Py.value -> string.
Variable self : Palladium.

Lemma configure_main_io_emu_fails (w : world) (errno : Z) :
  open_errno w (emu_filelist_file self) = Some errno ->
  configure_main_io ft fmt self w
  = (Raise (OSError errno (emu_filelist_file self)),
     mkWorld (disk w) (open_errno w) (fds w) (next_fd w)
             (trace w ++ [EvOpenFailed (emu_filelist_file self) errno])).
Proof.
  intros He. unfold configure_main_io, configure_main_on.
  destruct (_get_fileset_files self) as [files incdirs].
  unfold bind at 1. unfold open_w at 1. by rewrite He.
Qed.

Lemma configure_main_io_sim_fails (w : world) (errno : Z) :
  open_errno w (emu_filelist_file self) = None ->
  open_errno w (sim_filelist_file self) = Some errno ->
  configure_main_io ft fmt self w
  = (Raise (OSError errno (sim_filelist_file self)),
     mkWorld (<[emu_filelist_file self := ""]> (disk w)) (open_errno w)
             (<[next_fd w := emu_filelist_file self]> (fds w))
             (S (next_fd w))
             (trace w ++ [EvOpen (emu_filelist_file self);
                          EvOpenFailed (sim_filelist_file self) errno])).
Proof.
  intros He Hs. unfold configure_main_io, configure_main_on.
  destruct (_get_fileset_files self) as [files incdirs].
  unfold bind at 1. unfold open_w at 1. rewrite He.
  unfold bind at 1. unfold open_w at 1. cbn [open_errno]. rewrite Hs.
  cbn [fds disk trace open_errno next_fd]. by rewrite <- app_assoc.
Qed.

(** Once both files are open, what is left is the loop and the two closes. *)
Lemma configure_main_on_opened (dev_write : nat -> string -> M unit)
    (dev_close : nat -> M unit) (w : world) :
  open_errno w (emu_filelist_file self) = None ->
  open_errno w (sim_filelist_file self) = None ->
  configure_main_on dev_write dev_close fmt self w
  = (for_each (loop_body_on dev_write fmt self (snd (_get_fileset_files self))
                 (next_fd w) (S (next_fd w)))
              (fst (_get_fileset_files self)) ;;
     dev_close (next_fd w) ;;
     dev_close (S (next_fd w))) (opened_world self w).
Proof.
  intros He Hs. unfold configure_main_on, opened_world.
  destruct (_get_fileset_files self) as [files incdirs]. cbn [fst snd].
  unfold bind at 1. unfold open_w at 1. rewrite He.
  unfold bind at 1. unfold open_w at 1. cbn [open_errno]. rewrite Hs.
  cbn [fds disk trace open_errno next_fd]. by rewrite <- app_assoc.
Qed.

Variable incdirs : list string.
Variables efh sfh : nat.
Variables pe ps : string.

Lemma loop_body_io_skip (f : File.t) (w : world) :
  eligible f = false ->
  loop_body_on (write_io ft) fmt self incdirs efh sfh f w = (Ok tt, w).
Proof.
  unfold eligible, is_verilog_kind, isIncludeOnly, loop_body_on. intros H.
  destruct (_ || _); [|reflexivity].
  destruct (Py.hasattr _); [reflexivity|discriminate H].
Qed.

Lemma loop_body_io_emit (f : File.t) (w : world) :
  eligible f = true ->
  loop_body_on (write_io ft) fmt self incdirs efh sfh f w
  = write_io ft (if belongsToDeviceUnderTest f then efh else sfh)
             (compose_line fmt self incdirs f) w.
Proof.
  unfold eligible, is_verilog_kind, isIncludeOnly, loop_body_on,
    belongsToDeviceUnderTest, compose_line.
  intros H. destruct (_ || _); [|discriminate H].
  destruct (Py.hasattr (File.is_include_file f)); [discriminate H|].
  destruct (File.partof f) as [v|]; simpl; [|reflexivity].
  destruct (Py.eq_str v "dut"); reflexivity.
Qed.

(** The loop over the faulty device goes as the loop over the sound one,
    unless a write on one of the two files raises; then the loop raises
    what the write raised. *)
Lemma for_each_io (files : list File.t) :
  forall w,
    fds w !! efh = Some pe ->
    fds w !! sfh = Some ps ->
    for_each (loop_body_on (write_io ft) fmt self incdirs efh sfh) files w
    = for_each (loop_body fmt self incdirs efh sfh) files w
    \/ exists e w' p data,
         for_each (loop_body_on (write_io ft) fmt self incdirs efh sfh) files w
         = (Raise e, w')
         /\ (p = pe \/ p = ps)
         /\ write_fault ft p data = Some e.
Proof.
  induction files as [|f files IH]; intros w Hefh Hsfh; [by left|].
  cbn [for_each]. unfold bind.
  destruct (eligible f) eqn:Hel.
  - rewrite loop_body_io_emit, loop_body_emit by done.
    assert (Hh : exists p,
               (p = pe \/ p = ps)
               /\ fds w !! (if belongsToDeviceUnderTest f then efh else sfh)
                  = Some p).
    { destruct (belongsToDeviceUnderTest f); eauto. }
    destruct Hh as (p & Hp & Hh). unfold write_io. rewrite Hh.
    destruct (write_fault ft p (compose_line fmt self incdirs f)) as [e|]
      eqn:Hfault.
    + right. by exists e, w, p, (compose_line fmt self incdirs f).
    + unfold write. rewrite Hh. by apply IH.
  - rewrite loop_body_io_skip, loop_body_skip by done. by apply IH.
Qed.

(** A write that raises for the line of some eligible descriptor makes the
    loop raise an error that a write on one of the two files gave. *)
Lemma for_each_io_raises (files : list File.t) :
  forall w,
    fds w !! efh = Some pe ->
    fds w !! sfh = Some ps ->
    Exists (fun f =>
              eligible f = true
              /\ is_Some (write_fault ft
                            (if belongsToDeviceUnderTest f then pe else ps)
                            (compose_line fmt self incdirs f))) files ->
    exists e w' p data,
      for_each (loop_body_on (write_io ft) fmt self incdirs efh sfh) files w
      = (Raise e, w')
      /\ (p = pe \/ p = ps)
      /\ write_fault ft p data = Some e.
Proof.
  induction files as [|f files IH]; intros w Hefh Hsfh Hex;
    [by apply Exists_nil in Hex|].
  cbn [for_each]. unfold bind.
  destruct (eligible f) eqn:Hel.
  - rewrite loop_body_io_emit by done.
    assert (Hh : fds w !! (if belongsToDeviceUnderTest f then efh else sfh)
                 = Some (if belongsToDeviceUnderTest f then pe else ps))
      by (by destruct (belongsToDeviceUnderTest f)).
    unfold write_io. rewrite Hh.
    destruct (write_fault ft _ (compose_line fmt self incdirs f)) as [e|]
      eqn:Hfault.
    + exists e, w, (if belongsToDeviceUnderTest f then pe else ps),
        (compose_line fmt self incdirs f).
      split; [reflexivity|]. split; [|exact Hfault].
      destruct (belongsToDeviceUnderTest f); auto.
    + unfold write. rewrite Hh. apply IH; [done..|].
      apply Exists_cons in Hex as [[_ [e He]]|Hex]; [congruence|exact Hex].
  - rewrite loop_body_io_skip by done. apply IH; [done..|].
    apply Exists_cons in Hex as [[Hel' _]|Hex]; [congruence|exact Hex].
Qed.

(** The two closes over the faulty device. *)
Lemma close_io_both (w : world) :
  fds w !! efh = Some pe ->
  fds w !! sfh = Some ps ->
  efh <> sfh ->
  (close_io ft efh ;; close_io ft sfh) w
  = match close_fault ft pe with
    | Some e => (Raise e, snd (close efh w))
    | None =>
        match close_fault ft ps with
        | Some e => (Raise e, snd (close sfh (snd (close efh w))))
        | None => (close efh ;; close sfh) w
        end
    end.
Proof.
  intros Hefh Hsfh Hne. unfold bind. unfold close_io at 1. rewrite Hefh.
  destruct (close_fault ft pe) as [e|]; [reflexivity|].
  assert (Hclose : close efh w
                   = (Ok tt,
                      mkWorld (disk w) (open_errno w) (delete efh (fds w))
                              (next_fd w) (trace w ++ [EvClose pe])))
    by (unfold close; by rewrite Hefh).
  rewrite !Hclose. cbn [snd]. unfold close_io. cbn [fds].
  rewrite lookup_delete_ne by done. rewrite Hsfh.
  destruct (close_fault ft ps); reflexivity.
Qed.

End Faults.

(** What the run over the faulty device does once both files are open: it
    raises what a write on one of the two files raised, or else what the
    close of the emulation filelist raised, or else what the close of the
    simulation filelist raised, or else it ends as over the sound device. *)
Lemma configure_main_io_opened (ft : faults) (fmt : Py.value -> string)
    (self : Palladium) (w : world) :
  open_errno w (emu_filelist_file self) = None ->
  open_errno w (sim_filelist_file self) = None ->
  (exists e w' p data,
      configure_main_io ft fmt self w = (Raise e, w')
      /\ (p = emu_filelist_file self \/ p = sim_filelist_file self)
      /\ write_fault ft p data = Some e)
  \/ (exists e w',
         configure_main_io ft fmt self w = (Raise e, w')
         /\ close_fault ft (emu_filelist_file self) = Some e)
  \/ (exists e w',
         configure_main_io ft fmt self w = (Raise e, w')
         /\ close_fault ft (emu_filelist_file self) = None
         /\ close_fault ft (sim_filelist_file self) = Some e)
  \/ (configure_main_io ft fmt self w = configure_main fmt self w
      /\ close_fault ft (emu_filelist_file self) = None
      /\ close_fault ft (sim_filelist_file self) = None).
Proof.
  intros He Hs. pose proof (filelist_paths_differ self) as Hne.
  set (w2 := opened_world self w).
  assert (Hefh : fds w2 !! next_fd w = Some (emu_filelist_file self)).
  { unfold w2, opened_world; cbn [fds].
    rewrite lookup_insert_ne by lia. by rewrite lookup_insert_eq. }
  assert (Hsfh : fds w2 !! S (next_fd w) = Some (sim_filelist_file self)).
  { unfold w2, opened_world; cbn [fds]. by rewrite lookup_insert_eq. }
  pose proof (configure_main_on_opened fmt self (write_io ft) (close_io ft)
                w He Hs) as Hio.
  pose proof (configure_main_on_opened fmt self write close w He Hs) as Hpure.
  rewrite configure_main_on_device in Hpure.
  change (configure_main_on (write_io ft) (close_io ft) fmt self)
    with (configure_main_io ft fmt self) in Hio.
  change (loop_body_on write fmt self) with (loop_body fmt self) in Hpure.
  fold w2 in Hio, Hpure.
  destruct (for_each_io ft fmt self (snd (_get_fileset_files self))
              (next_fd w) (S (next_fd w)) _ _
              (fst (_get_fileset_files self)) w2 Hefh Hsfh)
    as [Hloop | (e & w' & p & data & Hloop & Hp & Hfault)].
  2:{ left. exists e, w', p, data. split; [|done].
      rewrite Hio. unfold bind at 1. by rewrite Hloop. }
  right.
  assert (Hw3 : exists w3,
             for_each (loop_body fmt self (snd (_get_fileset_files self))
                         (next_fd w) (S (next_fd w)))
                      (fst (_get_fileset_files self)) w2 = (Ok tt, w3)
             /\ fds w3 = fds w2).
  { eexists. split; [|shelve].
    apply (for_each_loop_body fmt self _ (next_fd w) (S (next_fd w))
             _ _ Hne _ w2 "" "" Hefh Hsfh);
      unfold w2, opened_world; cbn [disk];
      first [by rewrite lookup_insert_eq
            |rewrite lookup_insert_ne by done; by rewrite lookup_insert_eq].
    Unshelve. reflexivity. }
  destruct Hw3 as (w3 & Hw3 & Hfds).
  unfold bind at 1 in Hio. rewrite Hloop, Hw3 in Hio.
  unfold bind at 1 in Hpure. rewrite Hw3 in Hpure.
  rewrite (close_io_both ft (next_fd w) (S (next_fd w))
             (emu_filelist_file self) (sim_filelist_file self) w3) in Hio
    by (rewrite ?Hfds; first [exact Hefh | exact Hsfh | lia]).
  rewrite Hio, Hpure.
  destruct (close_fault ft (emu_filelist_file self)) as [e|];
    [left; eexists _, _; split; reflexivity|].
  destruct (close_fault ft (sim_filelist_file self)) as [e|];
    [right; left; eexists _, _; repeat split; reflexivity|].
  right; right. repeat split; reflexivity.
Qed.




Lemma loop_events_all_writes (fmt : Py.value -> string) (self : Palladium)
    (incdirs : list string) (pe ps : string) (files : list File.t) :
  Forall (fun e => is_write e = true)
         (loop_events fmt self incdirs pe ps files).
Proof.
  unfold loop_events.
  induction (List.filter eligible files) as [|f l IH]; constructor; done.
Qed.

Lemma loop_lines_none (fmt : Py.value -> string) (self : Palladium)
    (incdirs : list string) (dut : bool) (files : list File.t) :
  List.filter eligible files = [] ->
  loop_lines fmt self incdirs dut files = [].
Proof.
  intros Hnone. pose proof (length_loop_lines fmt self incdirs files) as Hlen.
  rewrite Hnone in Hlen. cbn [length] in Hlen.
  apply nil_length_inv. destruct dut; lia.
Qed.

(** C10. Both filelists are opened, in the order emulation then simulation,
    before anything else is done, and a run returns normally exactly when
    both open.  Such a run, whatever the input, leaves both files in
    existence and both file objects closed, with no other file object
    touched; between the two opens and the two closes there are only
    writes, and with no eligible descriptor both files are empty. *)
Theorem C10_files_exist_after_success
    (fmt : Py.value -> string) (self : Palladium) (w : world) :
  (fst (configure_main fmt self w) = Ok tt <->
   open_errno w (emu_filelist_file self) = None
   /\ open_errno w (sim_filelist_file self) = None)
  /\ (open_errno w (emu_filelist_file self) = None ->
      open_errno w (sim_filelist_file self) = None ->
      exists w' evs,
        configure_main fmt self w = (Ok tt, w')
        /\ trace w'
           = trace w
             ++ EvOpen (emu_filelist_file self)
                :: EvOpen (sim_filelist_file self)
                :: evs
             ++ [EvClose (emu_filelist_file self);
                 EvClose (sim_filelist_file self)]
        /\ Forall (fun e => is_write e = true) evs
        /\ is_Some (disk w' !! emu_filelist_file self)
        /\ is_Some (disk w' !! sim_filelist_file self)
        /\ fds w' !! next_fd w = None
        /\ fds w' !! S (next_fd w) = None
        /\ (forall fd,
              fd <> next_fd w -> fd <> S (next_fd w) ->
              fds w' !! fd = fds w !! fd)
        /\ (List.filter eligible (fst (_get_fileset_files self)) = [] ->
            evs = []
            /\ disk w' !! emu_filelist_file self = Some ""
            /\ disk w' !! sim_filelist_file self = Some "")).
Proof.
  split.
  - split.
    + intros Hok.
      destruct (open_errno w (emu_filelist_file self)) as [ee|] eqn:He.
      { rewrite (configure_main_emu_fails fmt self w ee He) in Hok.
        discriminate Hok. }
      destruct (open_errno w (sim_filelist_file self)) as [es|] eqn:Hs.
      { rewrite (configure_main_sim_fails fmt self w es He Hs) in Hok.
        discriminate Hok. }
      done.
    + intros [He Hs]. by rewrite configure_main_ok.
  - intros He Hs.
    destruct (disk_after fmt self w) as [Hde Hds].
    exists (world_after fmt self w),
      (loop_events fmt self (snd (_get_fileset_files self))
         (emu_filelist_file self) (sim_filelist_file self)
         (fst (_get_fileset_files self))).
    rewrite Hde, Hds.
    split; [by apply configure_main_ok|].
    split; [reflexivity|].
    split; [apply loop_events_all_writes|].
    do 2 (split; [eauto|]).
    unfold world_after; cbn [fds].
    split; [rewrite lookup_delete_ne by lia; by rewrite lookup_delete_eq|].
    split; [by rewrite lookup_delete_eq|].
    split.
    + intros fd H1 H2. rewrite !lookup_delete_ne by done.
      by rewrite !lookup_insert_ne.
    + intros Hnone. unfold routed_lines, loop_events.
      rewrite !loop_lines_none, Hnone by done. done.
Qed.

Lemma C10_witness :
  open_errno Sample.stale
    (emu_filelist_file (with_files Sample.self [Sample.readme])) = None
  /\ open_errno Sample.stale
       (sim_filelist_file (with_files Sample.self [Sample.readme])) = None
  /\ exists w',
       configure_main Sample.fmt (with_files Sample.self [Sample.readme])
         Sample.stale = (Ok tt, w')
       /\ disk w' !! "/build/top.emu.f" = Some ""
       /\ disk w' !! "/build/top.sim.f" = Some ""
       /\ fds w' !! 7 = None
       /\ fds w' !! 8 = None.
Proof.
  split; [reflexivity|]. split; [reflexivity|].
  destruct (C10_files_exist_after_success Sample.fmt
              (with_files Sample.self [Sample.readme]) Sample.stale)
    as [_ Hrun].
  destruct (Hrun eq_refl eq_refl)
    as (w' & evs & Hok & _ & _ & _ & _ & Hf1 & Hf2 & _ & Hempty).
  destruct (Hempty eq_refl) as (_ & Hemu & Hsim).
  exists w'. repeat split; assumption.
Defined.

(** Closed decidable side conditions are settled by evaluation. *)
Ltac by_decide :=
  match goal with
  | |- ?P => apply (bool_decide_unpack P); vm_compute; exact I
  end.

(** ** The debug dump *)

Lemma endswith_unfold (s suffix : string) :
  endswith s suffix
  = if String.eqb s suffix then true
    else match s with
         | EmptyString => false
         | String _ rest => endswith rest suffix
         end.
Proof. by destruct s. Qed.

Lemma endswith_spec (s suffix : string) :
  endswith s suffix = true <-> exists p, s = p +:+ suffix.
Proof.
  split.
  - induction s as [|c s IH]; rewrite endswith_unfold.
    + destruct (String.eqb_spec "" suffix) as [<-|Hne]; intros H;
        [by exists ""|discriminate H].
    + destruct (String.eqb_spec (String c s) suffix) as [<-|Hne]; intros H;
        [by exists ""|].
      destruct (IH H) as [p ->]. by exists (String c p).
  - intros [p ->]. induction p as [|c p IH]; rewrite endswith_unfold.
    + change ("" +:+ suffix) with suffix. by rewrite String.eqb_refl.
    + destruct (String.eqb _ suffix); [reflexivity|exact IH].
Qed.

Lemma dump_item_app (fmt : Py.value -> string) (I : string)
    (out : list string) (kv : string * attr_value) :
  dump_item fmt I out kv = out ++ dump_item fmt I [] kv.
Proof.
  destruct kv as [k v]. unfold dump_item, print.
  destruct (endswith k "env"); [by rewrite app_nil_r|].
  destruct v as [|d|l|text]; try reflexivity.
  - destruct (Nat.eqb (length d) 0); [reflexivity|].
    rewrite !(fold_left_snoc _
                (fun '(k2, v2) => I +:+ "   - " +:+ k2 +:+ ": " +:+ fmt v2))
      by (by intros acc [k2 v2]).
    by rewrite app_assoc.
  - destruct (Nat.eqb (length l) 0); [reflexivity|].
    rewrite !(fold_left_snoc _ (fun v2 => I +:+ "   - " +:+ v2)) by done.
    by rewrite app_assoc.
Qed.

Lemma fold_dump_item (fmt : Py.value -> string) (I : string)
    (l : list (string * attr_value)) :
  forall out,
    fold_left (dump_item fmt I) l out
    = out ++ flat_map (dump_item fmt I []) l.
Proof.
  induction l as [|kv l IH]; intros out; cbn [fold_left flat_map].
  - by rewrite app_nil_r.
  - rewrite IH, dump_item_app, <- app_assoc. reflexivity.
Qed.

Lemma dump_lines (fmt : Py.value -> string)
    (self_dict : list (string * attr_value)) (I : string) :
  _dump fmt self_dict I
  = flat_map (dump_item fmt I []) (sorted_by_key self_dict) ++ [""].
Proof. unfold _dump, print. by rewrite fold_dump_item. Qed.

Lemma leb_le (a b : string) : String.leb a b = true <-> String.le a b.
Proof. unfold String.le. by destruct (String.leb a b). Qed.

Lemma leb_false_ge (a b : string) : String.leb a b = false -> String.le b a.
Proof.
  intros H. destruct (total String.le a b) as [Hab|Hba]; [|done].
  apply leb_le in Hab. congruence.
Qed.

Lemma insert_by_key_perm (x : string * attr_value)
    (l : list (string * attr_value)) :
  insert_by_key x l ≡ₚ x :: l.
Proof.
  induction l as [|y l IH]; cbn [insert_by_key]; [done|].
  destruct (String.leb (fst x) (fst y)); [done|].
  rewrite IH. apply Permutation_swap.
Qed.

Lemma sorted_by_key_perm (l : list (string * attr_value)) :
  sorted_by_key l ≡ₚ l.
Proof.
  induction l as [|x l IH]; [done|].
  unfold sorted_by_key in *. cbn [foldr].
  by rewrite insert_by_key_perm, IH.
Qed.

Lemma insert_by_key_sorted (x : string * attr_value)
    (l : list (string * attr_value)) :
  StronglySorted key_le l -> StronglySorted key_le (insert_by_key x l).
Proof.
  induction 1 as [|y l Hl IH Hy]; cbn [insert_by_key].
  - by repeat constructor.
  - destruct (String.leb (fst x) (fst y)) eqn:Hxy.
    + apply leb_le in Hxy. constructor; [by constructor|].
      constructor; [exact Hxy|].
      eapply Forall_impl; [exact Hy|].
      intros z Hyz. unfold key_le in *. by etrans.
    + apply leb_false_ge in Hxy. constructor; [exact IH|].
      rewrite insert_by_key_perm. by constructor.
Qed.

Lemma sorted_by_key_sorted (l : list (string * attr_value)) :
  StronglySorted key_le (sorted_by_key l).
Proof.
  induction l as [|x l IH]; [constructor|].
  by apply insert_by_key_sorted.
Qed.

Lemma key_le_lt (l : list (string * attr_value)) :
  StronglySorted key_le l -> NoDup (l.*1) -> StronglySorted key_lt l.
Proof.
  induction 1 as [|x l Hl IH Hx]; [constructor|].
  rewrite fmap_cons. intros [Hnotin Hnodup]%NoDup_cons.
  constructor; [by apply IH|].
  apply Forall_forall. intros y Hy.
  rewrite Forall_forall in Hx. split; [by apply Hx|].
  intros Heq. apply Hnotin. rewrite Heq. by apply list_elem_of_fmap_2.
Qed.

Lemma key_sorted_unique (l1 l2 : list (string * attr_value)) :
  StronglySorted key_le l1 -> StronglySorted key_le l2 ->
  l1 ≡ₚ l2 -> NoDup (l1.*1) -> l1 = l2.
Proof.
  intros H1 H2 Hperm Hnodup.
  assert (Hanti : AntiSymm (=) key_lt).
  { intros x y [Hxy Hne] [Hyx _]. destruct Hne.
    by apply (anti_symm String.le). }
  apply (StronglySorted_unique key_lt); [| |exact Hperm].
  - by apply key_le_lt.
  - apply key_le_lt; [done|]. by rewrite <- Hperm.
Qed.

Lemma item_skipped (fmt : Py.value -> string) (I : string)
    (kv : string * attr_value) :
  dumped kv = false -> dump_item fmt I [] kv = [].
Proof.
  destruct kv as [k v]. unfold dumped, dump_item. cbn [fst].
  by destruct (endswith k "env").
Qed.

Lemma item_length (fmt : Py.value -> string) (I : string)
    (kv : string * attr_value) :
  length (dump_item fmt I [] kv)
  = if dumped kv then 1 + attr_size (snd kv) else 0.
Proof.
  destruct kv as [k v]. unfold dumped, dump_item, print. cbn [fst snd].
  destruct (endswith k "env"); [reflexivity|]. cbn [negb].
  destruct v as [|d|l|text]; try reflexivity.
  - destruct d as [|e d]; [reflexivity|]. cbn [length Nat.eqb attr_size].
    rewrite (fold_left_snoc _
               (fun '(k2, v2) => I +:+ "   - " +:+ k2 +:+ ": " +:+ fmt v2))
      by (by intros acc [k2 v2]).
    rewrite length_app, length_fmap. reflexivity.
  - destruct l as [|e l]; [reflexivity|]. cbn [length Nat.eqb attr_size].
    rewrite (fold_left_snoc _ (fun v2 => I +:+ "   - " +:+ v2)) by done.
    rewrite length_app, length_fmap. reflexivity.
Qed.

Lemma item_indent (fmt : Py.value -> string) (I : string)
    (kv : string * attr_value) :
  dump_item fmt I [] kv = String.append I <$> dump_item fmt "" [] kv.
Proof.
  destruct kv as [k v]. unfold dump_item, print.
  destruct (endswith k "env"); [reflexivity|].
  destruct v as [|d|l|text]; try reflexivity.
  - destruct (Nat.eqb (length d) 0); [reflexivity|].
    rewrite !(fold_left_snoc _
                (fun '(k2, v2) => I +:+ "   - " +:+ k2 +:+ ": " +:+ fmt v2))
      by (by intros acc [k2 v2]).
    rewrite (fold_left_snoc _
               (fun '(k2, v2) => "" +:+ "   - " +:+ k2 +:+ ": " +:+ fmt v2))
      by (by intros acc [k2 v2]).
    rewrite fmap_app, <- list_fmap_compose. cbn [app fmap list_fmap].
    f_equal. apply list_fmap_ext. by intros i [k2 v2] _.
  - destruct (Nat.eqb (length l) 0); [reflexivity|].
    rewrite !(fold_left_snoc _ (fun v2 => I +:+ "   - " +:+ v2)) by done.
    rewrite (fold_left_snoc _ (fun v2 => "" +:+ "   - " +:+ v2)) by done.
    rewrite fmap_app, <- list_fmap_compose. reflexivity.
Qed.

Lemma insert_by_key_least (x : string * attr_value)
    (l : list (string * attr_value)) :
  Forall (key_le x) l -> insert_by_key x l = x :: l.
Proof.
  destruct 1 as [|y l Hxy _]; [reflexivity|].
  cbn [insert_by_key]. apply leb_le in Hxy. by rewrite Hxy.
Qed.

Lemma filter_insert_by_key (p : string * attr_value -> bool)
    (x : string * attr_value) (l : list (string * attr_value)) :
  StronglySorted key_le l ->
  List.filter p (insert_by_key x l)
  = if p x then insert_by_key x (List.filter p l) else List.filter p l.
Proof.
  induction 1 as [|y l Hl IH Hy]; cbn [insert_by_key List.filter].
  - by destruct (p x).
  - destruct (String.leb (fst x) (fst y)) eqn:Hxy; cbn [List.filter].
    + destruct (p x); [|reflexivity].
      destruct (p y); cbn [insert_by_key]; [by rewrite Hxy|].
      symmetry. apply insert_by_key_least.
      apply Forall_forall. intros z Hz.
      apply list_elem_of_In, List.filter_In in Hz. destruct Hz as [Hz _].
      apply list_elem_of_In in Hz.
      rewrite Forall_forall in Hy. apply leb_le in Hxy.
      unfold key_le in *. etrans; [exact Hxy|]. by apply Hy.
    + rewrite IH. destruct (p x), (p y); cbn [insert_by_key];
        by rewrite ?Hxy.
Qed.

Lemma sorted_by_key_filter (p : string * attr_value -> bool)
    (l : list (string * attr_value)) :
  sorted_by_key (List.filter p l) = List.filter p (sorted_by_key l).
Proof.
  induction l as [|x l IH]; [reflexivity|].
  change (sorted_by_key (x :: l)) with (insert_by_key x (sorted_by_key l)).
  rewrite filter_insert_by_key by apply sorted_by_key_sorted.
  cbn [List.filter]. destruct (p x); [|exact IH].
  change (sorted_by_key (x :: List.filter p l))
    with (insert_by_key x (sorted_by_key (List.filter p l))).
  by rewrite IH.
Qed.

Lemma flat_map_dumped (fmt : Py.value -> string) (I : string)
    (l : list (string * attr_value)) :
  flat_map (dump_item fmt I []) (List.filter dumped l)
  = flat_map (dump_item fmt I []) l.
Proof.
  induction l as [|kv l IH]; [reflexivity|].
  cbn [List.filter flat_map]. destruct (dumped kv) eqn:Hkv.
  - cbn [flat_map]. by rewrite IH.
  - by rewrite item_skipped.
Qed.

Lemma flat_map_length_sum {A B} (f : A -> list B) (l : list A) :
  length (flat_map f l) = sum_list_with (fun x => length (f x)) l.
Proof.
  induction l as [|x l IH]; [reflexivity|].
  cbn [flat_map sum_list_with]. by rewrite length_app, IH.
Qed.

Lemma flat_map_fmap {A B C} (g : B -> C) (f : A -> list B) (l : list A) :
  flat_map (fun x => g <$> f x) l = g <$> flat_map f l.
Proof.
  induction l as [|x l IH]; [reflexivity|].
  cbn [flat_map]. by rewrite fmap_app, IH.
Qed.

(** X1. The dump prints the attributes in ascending order of their names,
    each attribute once: its output is the lines of the attributes taken in
    any arrangement of the dictionary that is sorted by name, followed by
    an empty line. *)
Theorem X1_dump_ascending_key_order
    (fmt : Py.value -> string) (self_dict l : list (string * attr_value))
    (I : string) :
  NoDup (self_dict.*1) ->
  l ≡ₚ self_dict ->
  StronglySorted key_le l ->
  _dump fmt self_dict I = flat_map (dump_item fmt I []) l ++ [""].
Proof.
  intros Hnodup Hperm Hsorted. rewrite dump_lines. do 2 f_equal.
  apply key_sorted_unique; [apply sorted_by_key_sorted|exact Hsorted| |].
  - by rewrite sorted_by_key_perm, Hperm.
  - by rewrite sorted_by_key_perm.
Qed.

Lemma X1_witness :
  _dump Sample.fmt [("name", AttrOther "top"); ("files", AttrList ["a.v"])] ""
  = ["- files:"; "   - a.v"; "- name: top"; ""].
Proof.
  rewrite (X1_dump_ascending_key_order Sample.fmt
             [("name", AttrOther "top"); ("files", AttrList ["a.v"])]
             [("files", AttrList ["a.v"]); ("name", AttrOther "top")] "").
  - reflexivity.
  - by_decide.
  - by_decide.
  - by_decide.
Defined.

(** X2. The dump does not depend on the order in which the attributes were
    set: two dictionaries with the same items print the same lines. *)
Theorem X2_dump_ignores_insertion_order
    (fmt : Py.value -> string) (d1 d2 : list (string * attr_value))
    (I : string) :
  NoDup (d1.*1) ->
  d1 ≡ₚ d2 ->
  _dump fmt d1 I = _dump fmt d2 I.
Proof.
  intros Hnodup Hperm. rewrite !dump_lines. do 2 f_equal.
  apply key_sorted_unique; try apply sorted_by_key_sorted.
  - by rewrite !sorted_by_key_perm.
  - by rewrite sorted_by_key_perm.
Qed.

Lemma X2_witness :
  _dump Sample.fmt DumpSample.self_dict "  "
  = _dump Sample.fmt DumpSample.self_dict_shuffled "  ".
Proof.
  apply (X2_dump_ignores_insertion_order Sample.fmt DumpSample.self_dict
           DumpSample.self_dict_shuffled "  ").
  - by_decide.
  - by_decide.
Defined.

(** X3. Attributes whose name ends in [env] leave no mark on the dump: the
    output is that of the dictionary without them. *)
Theorem X3_dump_skips_env_attributes
    (fmt : Py.value -> string) (self_dict : list (string * attr_value))
    (I : string) :
  _dump fmt self_dict I = _dump fmt (List.filter dumped self_dict) I
  /\ (forall kv, dumped kv = false <-> exists p, fst kv = p +:+ "env").
Proof.
  split.
  - rewrite !dump_lines, sorted_by_key_filter, flat_map_dumped. reflexivity.
  - intros kv. unfold dumped. rewrite negb_false_iff. apply endswith_spec.
Qed.

(** X4. The dump prints one line for each attribute it does not skip, one
    more line for every entry of a dictionary or list attribute, and a
    final empty line. *)
Theorem X4_dump_line_count
    (fmt : Py.value -> string) (self_dict : list (string * attr_value))
    (I : string) :
  length (_dump fmt self_dict I)
  = sum_list_with
      (fun kv => if dumped kv then 1 + attr_size (snd kv) else 0) self_dict
    + 1.
Proof.
  rewrite dump_lines, length_app, flat_map_length_sum. cbn [length]. f_equal.
  rewrite (sum_list_with_Permutation_proper _ _ _
             (sorted_by_key_perm self_dict)).
  induction self_dict as [|kv l IH]; [reflexivity|].
  cbn [sum_list_with]. by rewrite item_length, IH.
Qed.

(** X5. The indentation argument only goes in front of every line but the
    closing empty one: the dump with indentation [I] is the dump without
    indentation with [I] put before each line of its body. *)
Theorem X5_dump_indent_prefixes_lines
    (fmt : Py.value -> string) (self_dict : list (string * attr_value))
    (I : string) :
  exists body,
    _dump fmt self_dict "" = body ++ [""]
    /\ _dump fmt self_dict I = (String.append I <$> body) ++ [""].
Proof.
  exists (flat_map (dump_item fmt "" []) (sorted_by_key self_dict)).
  split; [apply dump_lines|].
  rewrite dump_lines, <- flat_map_fmap. f_equal.
  apply List.flat_map_ext. intros kv. apply item_indent.
Qed.

(** ** More on [configure_main] *)

Lemma for_each_ext {A} (body1 body2 : A -> M unit) (xs : list A) :
  (forall x w, body1 x w = body2 x w) ->
  forall w, for_each body1 xs w = for_each body2 xs w.
Proof.
  intros Hext. induction xs as [|x xs IH]; intros w; [reflexivity|].
  cbn [for_each]. unfold bind. rewrite Hext.
  destruct (body2 x w) as [[[]|e] w1]; [apply IH|reflexivity].
Qed.

(** Two objects that agree on the paths, on the fileset and on the tokens
    of every line run alike. *)
Lemma configure_main_args_ext (fmt : Py.value -> string)
    (self1 self2 : Palladium) (w : world) :
  work_root self1 = work_root self2 ->
  name self1 = name self2 ->
  _get_fileset_files self1 = _get_fileset_files self2 ->
  (forall incdirs f,
      compose_args fmt self1 incdirs f = compose_args fmt self2 incdirs f) ->
  configure_main fmt self1 w = configure_main fmt self2 w.
Proof.
  intros Hroot Hname Hfiles Hargs.
  unfold configure_main, emu_filelist_file, sim_filelist_file.
  rewrite Hroot, Hname, Hfiles.
  destruct (_get_fileset_files self2) as [files incdirs].
  unfold bind at 1 5. destruct (open_w _ w) as [[efh|e] w1]; [|reflexivity].
  unfold bind at 1 4. destruct (open_w _ w1) as [[sfh|e] w2]; [|reflexivity].
  unfold bind at 1 3.
  rewrite (for_each_ext (loop_body fmt self1 incdirs efh sfh)
             (loop_body fmt self2 incdirs efh sfh)); [reflexivity|].
  intros f w3. unfold loop_body. by rewrite Hargs.
Qed.

Lemma compose_args_vlan_opts (fmt : Py.value -> string) (self : Palladium)
    (opts1 opts2 : gmap string tool_option) (incdirs : list string)
    (f : File.t) :
  opts1 !! "vlan_opts" = opts2 !! "vlan_opts" ->
  compose_args fmt (with_tool_options self opts1) incdirs f
  = compose_args fmt (with_tool_options self opts2) incdirs f.
Proof.
  intros H. unfold compose_args.
  cbn [with_tool_options tool_options vlogdefine vlogparam]. by rewrite H.
Qed.

Lemma compose_args_no_vlan_opts (fmt : Py.value -> string) (self : Palladium)
    (opts1 opts2 : gmap string tool_option) (incdirs : list string)
    (f : File.t) :
  opt_truthy (default (OptStr "") (opts1 !! "vlan_opts")) = false ->
  opt_truthy (default (OptStr "") (opts2 !! "vlan_opts")) = false ->
  compose_args fmt (with_tool_options self opts1) incdirs f
  = compose_args fmt (with_tool_options self opts2) incdirs f.
Proof.
  intros H1 H2. unfold compose_args.
  cbn [with_tool_options tool_options vlogdefine vlogparam].
  by rewrite H1, H2.
Qed.

Lemma with_tool_options_same (self : Palladium) :
  with_tool_options self (tool_options self) = self.
Proof. by destruct self. Qed.



(** X7. For the file system a [vlan_opts] that is empty, as a list or as a
    string, counts as no [vlan_opts] at all: with the entry set to an empty
    value or removed, the method returns or raises the same, leaves the
    same bytes in every file and performs the same file operations, so no
    empty token is put on the lines.  What the debug dump prints on the
    standard output is no part of this statement. *)
Theorem X7_empty_vlan_opts_writes_same_files
    (fmt : Py.value -> string) (self : Palladium) (o : tool_option)
    (w : world) :
  opt_truthy o = false ->
  fst (configure_main fmt
         (with_tool_options self (<["vlan_opts" := o]> (tool_options self))) w)
  = fst (configure_main fmt
           (with_tool_options self (delete "vlan_opts" (tool_options self))) w)
  /\ disk (snd (configure_main fmt
                  (with_tool_options self
                     (<["vlan_opts" := o]> (tool_options self))) w))
     = disk (snd (configure_main fmt
                    (with_tool_options self
                       (delete "vlan_opts" (tool_options self))) w))
  /\ trace (snd (configure_main fmt
                   (with_tool_options self
                      (<["vlan_opts" := o]> (tool_options self))) w))
     = trace (snd (configure_main fmt
                     (with_tool_options self
                        (delete "vlan_opts" (tool_options self))) w)).
Proof.
  intros Hfalsy.
  assert (Hrun : configure_main fmt
                   (with_tool_options self
                      (<["vlan_opts" := o]> (tool_options self))) w
                 = configure_main fmt
                     (with_tool_options self
                        (delete "vlan_opts" (tool_options self))) w).
  { apply configure_main_args_ext; try reflexivity.
    intros incdirs f. apply compose_args_no_vlan_opts.
    - by rewrite lookup_insert_eq.
    - by rewrite lookup_delete_eq. }
  by rewrite Hrun.
Qed.

Lemma X7_witness :
  opt_truthy (OptList []) = false
  /\ trace (snd (configure_main Sample.fmt
                   (with_tool_options Sample.self_mixed
                      (<["vlan_opts" := OptList []]>
                         (tool_options Sample.self_mixed)))
                   Sample.fresh))
     = trace (snd (configure_main Sample.fmt
                     (with_tool_options Sample.self_mixed
                        (delete "vlan_opts" (tool_options Sample.self_mixed)))
                     Sample.fresh)).
Proof.
  split; [reflexivity|].
  apply (X7_empty_vlan_opts_writes_same_files Sample.fmt Sample.self_mixed
           (OptList []) Sample.fresh eq_refl).
Defined.

(** X8. When the simulation filelist cannot be opened, the emulation
    filelist has already been created or emptied, so that an earlier
    emulation filelist is lost; every other file is as before, and the file
    object of the emulation filelist is left open. *)
Theorem X8_failed_run_truncates_emulation_filelist
    (fmt : Py.value -> string) (self : Palladium) (w : world) (errno : Z) :
  open_errno w (emu_filelist_file self) = None ->
  open_errno w (sim_filelist_file self) = Some errno ->
  disk (snd (configure_main fmt self w)) !! emu_filelist_file self = Some ""
  /\ (forall p,
        p <> emu_filelist_file self ->
        disk (snd (configure_main fmt self w)) !! p = disk w !! p)
  /\ fds (snd (configure_main fmt self w)) !! next_fd w
     = Some (emu_filelist_file self)
  /\ EvClose (emu_filelist_file self)
       ∉ drop (length (trace w)) (trace (snd (configure_main fmt self w))).
Proof.
  intros He Hs. rewrite (configure_main_sim_fails fmt self w errno He Hs).
  cbn [snd disk fds trace]. split; [by rewrite lookup_insert_eq|].
  split; [intros p Hp; by rewrite lookup_insert_ne|].
  split; [by rewrite lookup_insert_eq|].
  rewrite drop_app_length, !not_elem_of_cons.
  repeat split; [discriminate..|apply not_elem_of_nil].
Qed.

Lemma X8_witness :
  DumpSample.previous_run.(disk) !! "/build/top.emu.f" = Some "old emu"
  /\ disk (snd (configure_main Sample.fmt Sample.self DumpSample.previous_run))
       !! "/build/top.emu.f" = Some "".
Proof.
  split; [reflexivity|].
  apply (X8_failed_run_truncates_emulation_filelist Sample.fmt Sample.self
           DumpSample.previous_run 13%Z eq_refl eq_refl).
Defined.

(** X9. Whatever the outcome, a run changes no file other than the two
    filelists. *)
Theorem X9_other_files_untouched
    (fmt : Py.value -> string) (self : Palladium) (w : world) (p : string) :
  p <> emu_filelist_file self ->
  p <> sim_filelist_file self ->
  disk (snd (configure_main fmt self w)) !! p = disk w !! p.
Proof.
  intros Hpe Hps.
  destruct (open_errno w (emu_filelist_file self)) as [ee|] eqn:He.
  { by rewrite (configure_main_emu_fails fmt self w ee He). }
  destruct (open_errno w (sim_filelist_file self)) as [es|] eqn:Hs.
  { rewrite (configure_main_sim_fails fmt self w es He Hs).
    cbn [snd disk]. by rewrite lookup_insert_ne. }
  rewrite (configure_main_ok fmt self w He Hs).
  unfold world_after; cbn [snd disk]. by rewrite !lookup_insert_ne.
Qed.

Lemma X9_witness :
  disk (snd (configure_main Sample.fmt Sample.self DumpSample.previous_run))
    !! "/build/notes.txt" = Some "keep".
Proof.
  rewrite (X9_other_files_untouched Sample.fmt Sample.self
             DumpSample.previous_run "/build/notes.txt");
    [reflexivity|discriminate|discriminate].
Defined.

Lemma file_bytes_app (xs ys : list string) :
  file_bytes (xs ++ ys) = file_bytes xs +:+ file_bytes ys.
Proof.
  induction xs as [|x xs IH]; [reflexivity|].
  cbn [app]. rewrite !file_bytes_cons, IH. by rewrite string_app_assoc.
Qed.

Lemma loop_lines_app (fmt : Py.value -> string) (self : Palladium)
    (incdirs : list string) (dut : bool) (l1 l2 : list File.t) :
  loop_lines fmt self incdirs dut (l1 ++ l2)
  = loop_lines fmt self incdirs dut l1 ++ loop_lines fmt self incdirs dut l2.
Proof. unfold loop_lines. by rewrite List.filter_app, fmap_app. Qed.

Lemma loop_lines_with_files (fmt : Py.value -> string) (self : Palladium)
    (l : list File.t) (incdirs : list string) (dut : bool)
    (files : list File.t) :
  loop_lines fmt (with_files self l) incdirs dut files
  = loop_lines fmt self incdirs dut files.
Proof. reflexivity. Qed.

(** X11. Filelists compose with the input: when both files open, the run
    on two lists of descriptors put end to end leaves in each filelist the
    bytes of the run on the first list followed by the bytes of the run on
    the second. *)
Theorem X11_filelists_of_concatenated_input
    (fmt : Py.value -> string) (self : Palladium) (l1 l2 : list File.t)
    (w : world) (p : string) :
  open_errno w (emu_filelist_file self) = None ->
  open_errno w (sim_filelist_file self) = None ->
  p = emu_filelist_file self \/ p = sim_filelist_file self ->
  exists b1 b2,
    disk (snd (configure_main fmt (with_files self l1) w)) !! p = Some b1
    /\ disk (snd (configure_main fmt (with_files self l2) w)) !! p = Some b2
    /\ disk (snd (configure_main fmt (with_files self (l1 ++ l2)) w)) !! p
       = Some (b1 +:+ b2).
Proof.
  intros He Hs Hp.
  assert (Hrun : forall l,
             configure_main fmt (with_files self l) w
             = (Ok tt, world_after fmt (with_files self l) w))
    by (intros l; by apply configure_main_ok).
  rewrite !Hrun. cbn [snd].
  destruct Hp as [-> | ->].
  - exists (file_bytes (routed_lines fmt (with_files self l1) true)),
      (file_bytes (routed_lines fmt (with_files self l2) true)).
    rewrite !(proj1 (disk_after fmt (with_files self _) w)).
    repeat split. unfold routed_lines; cbn [with_files _get_fileset_files fst snd].
    rewrite !loop_lines_with_files.
    by rewrite <- file_bytes_app, <- loop_lines_app.
  - exists (file_bytes (routed_lines fmt (with_files self l1) false)),
      (file_bytes (routed_lines fmt (with_files self l2) false)).
    rewrite !(proj2 (disk_after fmt (with_files self _) w)).
    repeat split. unfold routed_lines; cbn [with_files _get_fileset_files fst snd].
    rewrite !loop_lines_with_files.
    by rewrite <- file_bytes_app, <- loop_lines_app.
Qed.

Lemma X11_witness :
  exists b1 b2,
    disk (snd (configure_main Sample.fmt
                 (with_files Sample.self_mixed [Sample.tb_v]) Sample.fresh))
      !! "build/soc.sim.f" = Some b1
    /\ disk (snd (configure_main Sample.fmt
                    (with_files Sample.self_mixed [Sample.model_v])
                    Sample.fresh))
         !! "build/soc.sim.f" = Some b2
    /\ disk (snd (configure_main Sample.fmt
                    (with_files Sample.self_mixed
                       ([Sample.tb_v] ++ [Sample.model_v])) Sample.fresh))
         !! "build/soc.sim.f" = Some (b1 +:+ b2).
Proof.
  apply (X11_filelists_of_concatenated_input Sample.fmt Sample.self_mixed
           [Sample.tb_v] [Sample.model_v] Sample.fresh "build/soc.sim.f");
    [reflexivity|reflexivity|right; reflexivity].
Defined.
